(** * The table viewer view-model of cloudbeaver's data viewer

    A shallow embedding of [TableViewerModel] (fetch / cache / edit /
    reconcile) with explicit state passing.  The asynchronous methods are
    cut at their [await] points into a synchronous first half and a
    continuation, and a small event-driven machine replays the possible
    interleavings of grid calls, remote replies and dialog answers. *)

From stdpp Require Import base decidable option numbers strings list.

Local Open Scope Z_scope.

(** ** Data carried through the view-model *)

(** A cell value is opaque to the view-model; a row is an array of cells. *)
Definition TableRow := list string.

Record TableColumn := mkColumn {
  col_name : string;
  col_kind : string;
  col_position : nat;
}.

(** [SomeTableRows] is a JavaScript [Map<number, TableRow>]: [set] on a key
    that is present replaces the value where it stands, [set] on a new key
    appends, and [forEach] visits the entries in that order. *)
Definition SomeTableRows := list (nat * TableRow).

Fixpoint map_set (k : nat) (v : TableRow) (m : SomeTableRows) : SomeTableRows :=
  match m with
  | [] => [(k, v)]
  | (k', v') :: m' =>
      if decide (k = k') then (k, v) :: m' else (k', v') :: map_set k v m'
  end.

Record RowDiff := mkRowDiff {
  rowIndex : nat;
  source : TableRow;
  edited : TableRow;
}.

(** A thrown value: either a [GQLError] (it carries [errorText] and answers
    [hasDetails()]) or anything else, of which only [name] and [message]
    are read. *)
Inductive Exception :=
  | GQLError (errorText : string) (details : bool)
  | JsError (name message : string).

(** What the remote collaborators resolve to. [duration] is optional. *)
Module IRequestDataResult.
Record t := mk {
  rows : list TableRow;
  columns : list TableColumn;
  isFullyLoaded : bool;
  duration : option Z;
  statusMessage : string;
}.
End IRequestDataResult.

(** What [onRequestData] hands back to the grid. *)
Module IRequestedData.
Record t := mk {
  rows : list TableRow;
  columns : list TableColumn;
  isFullyLoaded : bool;
}.
End IRequestedData.

(** How a promise settles. *)
Inductive Settled (A : Type) :=
  | resolved (a : A)
  | rejected (e : Exception).
Arguments resolved {A} a.
Arguments rejected {A} e.

(** Notifications the view-model sends through [agGridModel.actions]. *)
Inductive GridCall :=
  | changeChunkSize (size : Z)
  | gridResetData
  | updateRowValue (rowNumber : nat) (row : TableRow).

(** ** The row/column store *)

Module TableDataModel.

(** Modelled from the spec: the class [TableDataModel] is imported from
    [./TableDataModel/TableDataModel], which is not part of the sources at
    hand.  Rows are a JavaScript array that may have holes ([None]); a row
    index is materialized when it holds a row. *)
Record t := mk {
  store_rows : list (option TableRow);
  store_columns : list TableColumn;
}.

(** Modelled from the spec: a store that has just been created holds no
    rows and no columns. *)
Definition empty : t := mk [] [].

(** Modelled from the spec: [getRows()] and [getColumns()], the accessors
    the view-model reads the store through. *)
Definition getRows (m : t) : list (option TableRow) := store_rows m.
Definition getColumns (m : t) : list TableColumn := store_columns m.

(** Modelled from the spec: the row held at index [i], if that index is
    materialized. *)
Definition getRow (rs : list (option TableRow)) (i : nat) : option TableRow :=
  mjoin (rs !! i).

(** Modelled from the spec: [isEmpty() -> bool]. *)
Definition isEmpty (m : t) : bool := bool_decide (store_rows m = []).

(** Modelled from the spec: "true iff every row index in
    [offset, offset+count) has been materialized". *)
Definition isChunkLoaded (offset count : nat) (m : t) : bool :=
  forallb (fun i => bool_decide (is_Some (getRow (store_rows m) i)))
          (seq offset count).

(** Modelled from the spec: "returns materialized rows in range". *)
Definition getChunk (offset count : nat) (m : t) : list TableRow :=
  omap id (take count (drop offset (store_rows m))).

(** Modelled from the spec: the assignment [rows[i] = r] of a JavaScript
    array, by which the store writes a row; past the end the array grows,
    leaving holes. *)
Definition array_set (i : nat) (r : TableRow) (rs : list (option TableRow))
  : list (option TableRow) :=
  if decide (i < length rs)%nat then <[i := Some r]> rs
  else rs ++ replicate (i - length rs) None ++ [Some r].

(** Modelled from the spec: one assignment per row, from [position] on. *)
Fixpoint write_from (position : nat) (new : list TableRow)
    (rs : list (option TableRow)) : list (option TableRow) :=
  match new with
  | [] => rs
  | r :: new' => write_from (S position) new' (array_set position r rs)
  end.

(** Modelled from the spec: "writes rows starting at position, extending
    the store if needed; overwrites any rows already present". *)
Definition insertRows (position : nat) (new : list TableRow) (m : t) : t :=
  mk (write_from position new (store_rows m)) (store_columns m).

(** Modelled from the spec: "appends at current end". *)
Definition pushRows (new : list TableRow) (m : t) : t :=
  mk (store_rows m ++ (Some <$> new)) (store_columns m).

(** Modelled from the spec: "replaces the column schema". *)
Definition overWrite (cols : list TableColumn) (m : t) : t :=
  mk (store_rows m) cols.

(** Modelled from the spec: "targeted overwrite used after save
    reconciliation", one assignment per entry of the map, in its order. *)
Definition updateRows (mapping : SomeTableRows) (m : t) : t :=
  mk (foldl (fun acc e => array_set e.1 e.2 acc) (store_rows m) mapping)
     (store_columns m).

(** Modelled from the spec: "clears all rows and loaded-range tracking;
    columns untouched". *)
Definition resetData (m : t) : t := mk [] (store_columns m).

End TableDataModel.

(** ** The edit tracker *)

Module TableEditor.

(** Modelled from the spec: the class [TableEditor] is imported from
    [./TableDataModel/TableEditor], which is not part of the sources at
    hand.  The pending set holds one [RowDiff] per edited row, in the
    order of the first edit of each row. *)
Definition t := list RowDiff.

(** Modelled from the spec: a tracker that has just been created has
    nothing pending. *)
Definition empty : t := [].

(** Modelled from the spec: "returns the pending set, stable order". *)
Definition getChanges (e : t) : list RowDiff := e.

(** Modelled from the spec: "clears the pending set without writing
    anything back". *)
Definition cancelChanges (e : t) : t := [].

(** Modelled from the spec: "if a RowDiff exists, update edited in place";
    [None] when no diff exists for [row]. *)
Fixpoint amend (row col : nat) (value : string) (e : t) : option t :=
  match e with
  | [] => None
  | d :: e' =>
      if decide (rowIndex d = row)
      then Some (mkRowDiff row (source d) (<[col := value]> (edited d)) :: e')
      else cons d <$> amend row col value e'
  end.

(** Modelled from the spec: "if no RowDiff exists for row, snapshot
    current row as source, set edited = current row with column col
    replaced by value; if a RowDiff exists, update edited in place.  Never
    touches the store".  A row that is not materialized has nothing to
    snapshot and is left alone. *)
Definition editCellValue (store : TableDataModel.t) (row col : nat)
    (value : string) (e : t) : t :=
  match amend row col value e with
  | Some e' => e'
  | None =>
      match TableDataModel.getRow (TableDataModel.getRows store) row with
      | Some r => e ++ [mkRowDiff row r (<[col := value]> r)]
      | None => e
      end
  end.

(** Modelled from the spec: "at most one RowDiff per row index while edits
    are pending". *)
Definition unique_rows (diffs : list RowDiff) : Prop :=
  NoDup (rowIndex <$> diffs).

End TableEditor.

(** ** The view-model state *)

Module fetchingSettings.
Definition fetchMin : Z := 1.
Definition fetchMax : Z := 5000.
Definition fetchDefault : Z := 200.
End fetchingSettings.

(** The fields of [TableViewerModel].  [actions] is [agGridModel.actions]:
    [None] until the grid plugin sets it, then the notifications the grid
    has received so far.  [noLoaderWhileRequestingDataAsync] is the flag of
    [init]. *)
Record TableViewerModel := mkModel {
  queryDuration : Z;
  requestStatusMessage : string;
  errorMessage : string;
  hasDetails : bool;
  _hasMoreRows : bool;
  _isLoaderVisible : bool;
  _chunkSize : Z;
  exception : option Exception;
  tableDataModel : TableDataModel.t;
  tableEditor : TableEditor.t;
  actions : option (list GridCall);
  noLoaderWhileRequestingDataAsync : bool;
}.

Definition set_queryDuration (v : Z) (m : TableViewerModel) :=
  let 'mkModel _ b c d e f g h i j k l := m in mkModel v b c d e f g h i j k l.
Definition set_requestStatusMessage (v : string) (m : TableViewerModel) :=
  let 'mkModel a _ c d e f g h i j k l := m in mkModel a v c d e f g h i j k l.
Definition set_errorMessage (v : string) (m : TableViewerModel) :=
  let 'mkModel a b _ d e f g h i j k l := m in mkModel a b v d e f g h i j k l.
Definition set_hasDetails (v : bool) (m : TableViewerModel) :=
  let 'mkModel a b c _ e f g h i j k l := m in mkModel a b c v e f g h i j k l.
Definition set_hasMoreRows (v : bool) (m : TableViewerModel) :=
  let 'mkModel a b c d _ f g h i j k l := m in mkModel a b c d v f g h i j k l.
Definition set_isLoaderVisible (v : bool) (m : TableViewerModel) :=
  let 'mkModel a b c d e _ g h i j k l := m in mkModel a b c d e v g h i j k l.
Definition set_chunkSize (v : Z) (m : TableViewerModel) :=
  let 'mkModel a b c d e f _ h i j k l := m in mkModel a b c d e f v h i j k l.
Definition set_exception (v : option Exception) (m : TableViewerModel) :=
  let 'mkModel a b c d e f g _ i j k l := m in mkModel a b c d e f g v i j k l.
Definition set_tableDataModel (v : TableDataModel.t) (m : TableViewerModel) :=
  let 'mkModel a b c d e f g h _ j k l := m in mkModel a b c d e f g h v j k l.
Definition set_tableEditor (v : TableEditor.t) (m : TableViewerModel) :=
  let 'mkModel a b c d e f g h i _ k l := m in mkModel a b c d e f g h i v k l.
Definition set_actions (v : option (list GridCall)) (m : TableViewerModel) :=
  let 'mkModel a b c d e f g h i j _ l := m in mkModel a b c d e f g h i j v l.

(** [this.agGridModel.actions?.f(...)]: nothing happens while [actions] is
    null. *)
Definition notify (c : GridCall) (m : TableViewerModel) : TableViewerModel :=
  set_actions ((fun log => log ++ [c]) <$> actions m) m.

Definition isEmpty (m : TableViewerModel) : bool :=
  TableDataModel.isEmpty (tableDataModel m).
Definition isLoaderVisible (m : TableViewerModel) : bool := _isLoaderVisible m.
Definition isFullyLoaded (m : TableViewerModel) : bool := negb (_hasMoreRows m).
Definition getChunkSize (m : TableViewerModel) : Z := _chunkSize m.

(** ** Synchronous methods *)

(** [count ? Math.max(fetchMin, Math.min(count, fetchMax)) : fetchDefault];
    an absent argument and [0] are the falsy integers. *)
Definition getDefaultRowsCount (count : option Z) : Z :=
  match count with
  | Some c =>
      if decide (c = 0) then fetchingSettings.fetchDefault
      else Z.max fetchingSettings.fetchMin (Z.min c fetchingSettings.fetchMax)
  | None => fetchingSettings.fetchDefault
  end.

Definition updateChunkSize (value : option Z) (m : TableViewerModel)
  : TableViewerModel :=
  let m1 := set_chunkSize (getDefaultRowsCount value) m in
  notify (changeChunkSize (_chunkSize m1)) m1.

Definition setChunkSize (count : option Z) (m : TableViewerModel)
  : TableViewerModel := updateChunkSize count m.

Definition resetData (m : TableViewerModel) : TableViewerModel :=
  let m1 := set_tableDataModel (TableDataModel.resetData (tableDataModel m)) m in
  let m2 := notify gridResetData m1 in
  let m3 := set_requestStatusMessage "" m2 in
  let m4 := set_queryDuration 0 m3 in
  let m5 := set_hasMoreRows true m4 in
  set_errorMessage "" m5.

Definition handleRefresh (m : TableViewerModel) : TableViewerModel :=
  resetData m.

(** [duration || 0]: an absent duration reads as [0]. *)
Definition updateInfo (status : string) (duration : option Z)
    (m : TableViewerModel) : TableViewerModel :=
  set_requestStatusMessage status (set_queryDuration (default 0 duration) m).

Definition pushRows (rows : list TableRow) (hasMore : bool)
    (m : TableViewerModel) : TableViewerModel :=
  set_hasMoreRows hasMore
    (set_tableDataModel (TableDataModel.pushRows rows (tableDataModel m)) m).

Definition insertRows (position : nat) (rows : list TableRow) (hasMore : bool)
    (m : TableViewerModel) : TableViewerModel :=
  let isRowsAddition :=
    bool_decide (length (TableDataModel.getRows (tableDataModel m))
                 < position + length rows)%nat in
  let m1 :=
    set_tableDataModel
      (TableDataModel.insertRows position rows (tableDataModel m)) m in
  set_hasMoreRows (if isRowsAddition then hasMore else _hasMoreRows m1) m1.

Definition updateAgGridRows (rows : SomeTableRows) (m : TableViewerModel)
  : TableViewerModel :=
  foldl (fun acc e => notify (updateRowValue e.1 e.2) acc) m rows.

Definition revertChanges (diffs : list RowDiff) (m : TableViewerModel)
  : TableViewerModel :=
  let m1 := set_tableEditor (TableEditor.cancelChanges (tableEditor m)) m in
  let initialRows :=
    foldl (fun acc d => map_set (rowIndex d) (source d) acc) [] diffs in
  updateAgGridRows initialRows m1.

Definition onEditCancel (m : TableViewerModel) : TableViewerModel :=
  let diffs := TableEditor.getChanges (tableEditor m) in
  revertChanges diffs m.

Definition onCellEditingStopped (rowNumber colNumber : nat) (value : string)
    (m : TableViewerModel) : TableViewerModel :=
  set_tableEditor
    (TableEditor.editCellValue (tableDataModel m) rowNumber colNumber value
       (tableEditor m)) m.

Definition length_mismatch : Exception :=
  JsError "Error" "expected that new rows have same length as diff".

(** The result is the [Map] built by the loop, or the thrown [Error]. *)
Definition zipDiffAndResults (diff : list RowDiff) (newRows : list TableRow)
  : Settled SomeTableRows :=
  if decide (length diff ≠ length newRows) then rejected length_mismatch
  else resolved
         (foldl (fun acc p => map_set (rowIndex p.1) p.2 acc) []
                (zip diff newRows)).

Definition showError (e : Exception) (m : TableViewerModel)
  : TableViewerModel :=
  let m1 := set_exception None m in
  let m2 := set_hasDetails false m1 in
  match e with
  | GQLError errorText details =>
      set_hasDetails details
        (set_exception (Some e) (set_errorMessage errorText m2))
  | JsError name message =>
      set_errorMessage (name +:+ ": " +:+ message) m2
  end.

Definition clearErrors (m : TableViewerModel) : TableViewerModel :=
  set_errorMessage "" m.

(** The constructor: field initialisers, then the optional initial state.
    [initialRows] and [initialColumns] of [agGridModel] are what the store
    returns at that point and are not kept as fields here. *)
Definition new_TableViewerModel (initialState : option IRequestDataResult.t)
    (noLoader : bool) : TableViewerModel :=
  let m0 :=
    mkModel 0 "" "" false true false (getDefaultRowsCount None) None
            TableDataModel.empty TableEditor.empty None noLoader in
  match initialState with
  | Some s =>
      let m1 := insertRows 0%nat (IRequestDataResult.rows s)
                  (negb (IRequestDataResult.isFullyLoaded s)) m0 in
      let m2 := set_tableDataModel
                  (TableDataModel.overWrite (IRequestDataResult.columns s)
                     (tableDataModel m1)) m1 in
      updateInfo (IRequestDataResult.statusMessage s)
                 (IRequestDataResult.duration s) m2
  | None => m0
  end.

(** ** Asynchronous methods, cut at their [await] *)

(** [onRequestData] up to [await this.init.requestDataAsync(...)]: either
    the cached answer, or the state in which the remote call is issued. *)
Definition onRequestData_begin (rowOffset count : nat) (m : TableViewerModel)
  : IRequestedData.t + TableViewerModel :=
  if TableDataModel.isChunkLoaded rowOffset count (tableDataModel m)
     || isFullyLoaded m
  then inl (IRequestedData.mk
              (TableDataModel.getChunk rowOffset count (tableDataModel m))
              (TableDataModel.getColumns (tableDataModel m))
              (isFullyLoaded m))
  else inr (set_isLoaderVisible (negb (noLoaderWhileRequestingDataAsync m)) m).

(** [onRequestData] from the point where the remote call settles: the
    [try] body or the [catch], then the [finally]. *)
Definition onRequestData_resume (rowOffset : nat)
    (reply : Settled IRequestDataResult.t) (m : TableViewerModel)
  : TableViewerModel * Settled IRequestedData.t :=
  match reply with
  | resolved response =>
      let m1 := insertRows rowOffset (IRequestDataResult.rows response)
                  (negb (IRequestDataResult.isFullyLoaded response)) m in
      let m2 :=
        if bool_decide
             (length (TableDataModel.getColumns (tableDataModel m1)) = 0%nat)
        then set_tableDataModel
               (TableDataModel.overWrite (IRequestDataResult.columns response)
                  (tableDataModel m1)) m1
        else m1 in
      let m3 := clearErrors m2 in
      let m4 := updateInfo (IRequestDataResult.statusMessage response)
                  (IRequestDataResult.duration response) m3 in
      (set_isLoaderVisible false m4,
       resolved (IRequestedData.mk (IRequestDataResult.rows response)
                   (IRequestDataResult.columns response)
                   (IRequestDataResult.isFullyLoaded response)))
  | rejected e =>
      (set_isLoaderVisible false (showError e m), rejected e)
  end.

(** One whole call of [onRequestData], the remote call settling with
    [reply] when it is made at all.  The boolean tells whether the remote
    collaborator was invoked. *)
Definition onRequestData (rowOffset count : nat)
    (reply : Settled IRequestDataResult.t) (m : TableViewerModel)
  : TableViewerModel * Settled IRequestedData.t * bool :=
  match onRequestData_begin rowOffset count m with
  | inl data => (m, resolved data, false)
  | inr m1 => (onRequestData_resume rowOffset reply m1, true)
  end.

(** [trySaveChanges] up to [await this.init.saveChanges(diffs)]. *)
Definition trySaveChanges_begin (m : TableViewerModel) : TableViewerModel :=
  set_isLoaderVisible true m.

(** [trySaveChanges] from the point where the save settles; [Some e] is the
    exception that leaves the method, after the [finally]. *)
Definition trySaveChanges_resume (diffs : list RowDiff)
    (reply : Settled IRequestDataResult.t) (m : TableViewerModel)
  : TableViewerModel * option Exception :=
  match reply with
  | resolved data =>
      match zipDiffAndResults diffs (IRequestDataResult.rows data) with
      | resolved someRows =>
          let m1 :=
            set_tableEditor (TableEditor.cancelChanges (tableEditor m)) m in
          let m2 :=
            set_tableDataModel
              (TableDataModel.updateRows someRows (tableDataModel m1)) m1 in
          let m3 := updateAgGridRows someRows m2 in
          let m4 := clearErrors m3 in
          let m5 := updateInfo (IRequestDataResult.statusMessage data)
                      (IRequestDataResult.duration data) m4 in
          (set_isLoaderVisible false m5, None)
      | rejected e => (set_isLoaderVisible false m, Some e)
      end
  | rejected e => (set_isLoaderVisible false m, Some e)
  end.

Definition trySaveChanges (diffs : list RowDiff)
    (reply : Settled IRequestDataResult.t) (m : TableViewerModel)
  : TableViewerModel * option Exception :=
  trySaveChanges_resume diffs reply (trySaveChanges_begin m).

(** ** The commit loop and the event-driven machine *)

(** A call to a collaborator that the view-model awaits. *)
Inductive Collaborator :=
  | requestDataAsync (rowOffset count : nat)
  | saveChanges (diffs : list RowDiff)
  | openErrorDialog (message : string) (onShowDetails : bool).

(** Where a suspended method of the view-model waits. [awaitSave] and
    [awaitDialog] are the two [await]s inside the [while (true)] of
    [onSaveChanges], with the [diffs] it captured before the loop. *)
Inductive Pending :=
  | awaitFetch (rowOffset count : nat)
  | awaitSave (diffs : list RowDiff)
  | awaitDialog (diffs : list RowDiff) (e : Exception).

(** What a step hands to the outside. *)
Inductive Output :=
  | completes
  | returns (data : IRequestedData.t)
  | throws (e : Exception)
  | calls (c : Collaborator).

(** [onSaveChanges] up to the first [await]: [None] when there is nothing
    to save. *)
Definition onSaveChanges_begin (m : TableViewerModel)
  : TableViewerModel * option (list RowDiff) :=
  let diffs := TableEditor.getChanges (tableEditor m) in
  if bool_decide (length diffs = 0%nat) then (m, None)
  else (trySaveChanges_begin m, Some diffs).

(** The [catch] block of [onSaveChanges] up to its [await]: the dialog it
    opens for the caught exception. *)
Definition onSaveChanges_catch (e : Exception) : Collaborator :=
  let hasDetails := false in
  match e with
  | GQLError errorText details => openErrorDialog errorText details
  | JsError name message => openErrorDialog (name +:+ ": " +:+ message) hasDetails
  end.

(** The rest of the [catch] block once the dialog has answered: [None]
    when the loop goes round again. *)
Definition onSaveChanges_answer (diffs : list RowDiff) (tryAgain : bool)
    (m : TableViewerModel) : option TableViewerModel :=
  if tryAgain then None else Some (revertChanges diffs m).

Record Machine := mkMachine {
  vm : TableViewerModel;
  inflight : list Pending;
}.

Inductive Event :=
  | gridAttached
  | callRequestData (rowOffset count : nat)
  | callCellEditingStopped (rowNumber colNumber : nat) (value : string)
  | callEditSave
  | callEditCancel
  | callSetChunkSize (count : option Z)
  | callRefresh
  | fetchSettled (i : nat) (reply : Settled IRequestDataResult.t)
  | saveSettled (i : nat) (reply : Settled IRequestDataResult.t)
  | dialogClosed (i : nat) (tryAgain : bool).

(** One event. Settling events name the suspended method by its position
    in [inflight]; an event that does not match what waits there is not
    enabled. *)
Definition step (ev : Event) (s : Machine) : option (Machine * Output) :=
  let m := vm s in
  match ev with
  | gridAttached =>
      Some (mkMachine (set_actions (Some []) m) (inflight s), completes)
  | callRequestData rowOffset count =>
      match onRequestData_begin rowOffset count m with
      | inl data => Some (s, returns data)
      | inr m1 =>
          Some (mkMachine m1 (inflight s ++ [awaitFetch rowOffset count]),
                calls (requestDataAsync rowOffset count))
      end
  | callCellEditingStopped rowNumber colNumber value =>
      Some (mkMachine (onCellEditingStopped rowNumber colNumber value m)
              (inflight s), completes)
  | callEditSave =>
      match onSaveChanges_begin m with
      | (m1, None) => Some (mkMachine m1 (inflight s), completes)
      | (m1, Some diffs) =>
          Some (mkMachine m1 (inflight s ++ [awaitSave diffs]),
                calls (saveChanges diffs))
      end
  | callEditCancel => Some (mkMachine (onEditCancel m) (inflight s), completes)
  | callSetChunkSize count =>
      Some (mkMachine (setChunkSize count m) (inflight s), completes)
  | callRefresh => Some (mkMachine (handleRefresh m) (inflight s), completes)
  | fetchSettled i reply =>
      match inflight s !! i with
      | Some (awaitFetch rowOffset _) =>
          let '(m1, r) := onRequestData_resume rowOffset reply m in
          Some (mkMachine m1 (delete i (inflight s)),
                match r with resolved d => returns d | rejected e => throws e end)
      | _ => None
      end
  | saveSettled i reply =>
      match inflight s !! i with
      | Some (awaitSave diffs) =>
          match trySaveChanges_resume diffs reply m with
          | (m1, None) => Some (mkMachine m1 (delete i (inflight s)), completes)
          | (m1, Some e) =>
              Some (mkMachine m1 (<[i := awaitDialog diffs e]> (inflight s)),
                    calls (onSaveChanges_catch e))
          end
      | _ => None
      end
  | dialogClosed i tryAgain =>
      match inflight s !! i with
      | Some (awaitDialog diffs _) =>
          match onSaveChanges_answer diffs tryAgain m with
          | None =>
              Some (mkMachine (trySaveChanges_begin m)
                      (<[i := awaitSave diffs]> (inflight s)),
                    calls (saveChanges diffs))
          | Some m1 => Some (mkMachine m1 (delete i (inflight s)), completes)
          end
      | _ => None
      end
  end.

Fixpoint run (evs : list Event) (s : Machine)
  : option (Machine * list Output) :=
  match evs with
  | [] => Some (s, [])
  | ev :: evs' =>
      match step ev s with
      | Some (s', o) => (fun r => (r.1, o :: r.2)) <$> run evs' s'
      | None => None
      end
  end.

Definition boot (initialState : option IRequestDataResult.t) (noLoader : bool)
  : Machine :=
  mkMachine (new_TableViewerModel initialState noLoader) [].

Inductive reachable : Machine -> Prop :=
  | reach_boot initialState noLoader : reachable (boot initialState noLoader)
  | reach_step s ev s' o :
      reachable s -> step ev s = Some (s', o) -> reachable s'.

(** A remote fetch or a remote save attempt is in flight. *)
Definition remote (p : Pending) : bool :=
  match p with
  | awaitFetch _ _ | awaitSave _ => true
  | awaitDialog _ _ => false
  end.

Definition remote_in_flight (s : Machine) : bool := existsb remote (inflight s).

Definition pending_diffs (p : Pending) : list RowDiff :=
  match p with
  | awaitFetch _ _ => []
  | awaitSave diffs | awaitDialog diffs _ => diffs
  end.

(** ** What the statements below speak about *)

(** A sequence of complete, serialized [onRequestData] calls, each with the
    reply its remote call would get. *)
Definition requestWindows
    (calls : list (nat * nat * Settled IRequestDataResult.t))
    (m : TableViewerModel) : TableViewerModel :=
  foldl (fun acc c => (onRequestData c.1.1 c.1.2 c.2 acc).1.1) m calls.

(** The answer [onRequestData] gives from the store. *)
Definition cache_answer (rowOffset count : nat) (m : TableViewerModel)
  : IRequestedData.t :=
  IRequestedData.mk
    (TableDataModel.getChunk rowOffset count (tableDataModel m))
    (TableDataModel.getColumns (tableDataModel m))
    (isFullyLoaded m).

(** Every component of the error state is back to its initial value. *)
Definition errors_cleared (m : TableViewerModel) : Prop :=
  errorMessage m = "" /\ hasDetails m = false /\ exception m = None.

(** [m'] is [m] after a revert of [diffs]: no pending edit, the same store,
    and one [updateRowValue] per diff, carrying its [source]. *)
Definition reverted (diffs : list RowDiff) (m m' : TableViewerModel) : Prop :=
  tableEditor m' = [] /\
  tableDataModel m' = tableDataModel m /\
  actions m' =
    (fun log =>
       log ++ ((fun d => updateRowValue (rowIndex d) (source d)) <$> diffs))
      <$> actions m.

(** No two diffs for one row, in the edit tracker and in the diffs that the
    suspended commit cycles captured. *)
Definition diffs_unique (s : Machine) : Prop :=
  TableEditor.unique_rows (TableEditor.getChanges (tableEditor (vm s))) /\
  Forall (fun p => TableEditor.unique_rows (pending_diffs p)) (inflight s).

Definition after (evs : list Event) (s : Machine) : Machine :=
  match run evs s with
  | Some r => r.1
  | None => s
  end.

(** ** Sample data *)

Definition sample_columns : list TableColumn :=
  [mkColumn "id" "int" 0; mkColumn "name" "text" 1].

Definition sample_page : IRequestDataResult.t :=
  IRequestDataResult.mk
    [["1"; "ann"]; ["2"; "bob"]; ["3"; "cy"]; ["4"; "dee"]]
    sample_columns false (Some 12) "4 rows".

Definition last_page : IRequestDataResult.t :=
  IRequestDataResult.mk [["5"; "eve"]] sample_columns true None "1 row".

Definition denied : Exception := GQLError "permission denied" true.

(** Four rows loaded, the grid attached. *)
Definition loaded : Machine :=
  after [gridAttached; callRequestData 0 4; fetchSettled 0 (resolved sample_page)]
        (boot None false).

(** Rows 1 and 3 edited on top of [loaded]. *)
Definition edited_twice : Machine :=
  after [callCellEditingStopped 1 1 "bea"; callCellEditingStopped 3 1 "dot"]
        loaded.

(** The last page fetched on top of [loaded]: the table is complete. *)
Definition complete : Machine :=
  after [callRequestData 4 4; fetchSettled 0 (resolved last_page)] loaded.

(** The first window requested, its fetch in flight. *)
Definition fetching : Machine :=
  after [gridAttached; callRequestData 0 4] (boot None false).

Definition two_diffs : list RowDiff :=
  [mkRowDiff 1 ["2"; "bob"] ["2"; "bea"]; mkRowDiff 3 ["4"; "dee"] ["4"; "dot"]].

Definition saved_two : IRequestDataResult.t :=
  IRequestDataResult.mk [["2"; "bea"]; ["4"; "dot"]] [] false (Some 3) "2 rows updated".

Definition saved_one : IRequestDataResult.t :=
  IRequestDataResult.mk [["2"; "bea"]] [] false (Some 3) "1 row updated".

(** A first fetch that failed with a detailed remote error. *)
Definition failed_first : Machine :=
  after [gridAttached; callRequestData 0 4; fetchSettled 0 (rejected denied)]
        (boot None false).

Definition failed_then_fetched : list Event :=
  [gridAttached; callRequestData 0 4; fetchSettled 0 (rejected denied);
   callRequestData 0 4; fetchSettled 0 (resolved sample_page)].

(** A fetch fails on top of [loaded], then one edit is saved. *)
Definition failed_then_saved : list Event :=
  [callRequestData 4 4; fetchSettled 0 (rejected denied);
   callCellEditingStopped 1 1 "bea"; callEditSave;
   saveSettled 0 (resolved saved_one)].

Definition failed_then_refreshed : list Event :=
  [gridAttached; callRequestData 0 4; fetchSettled 0 (rejected denied);
   callRefresh].

(** An empty reply that claims the table is complete. *)
Definition empty_last_page : IRequestDataResult.t :=
  IRequestDataResult.mk [] sample_columns true None "no rows".

(** ** Further methods and vocabulary *)

(** [onShowDetails]: the exception handed to the details dialog, when one
    is stored; nothing is opened otherwise. *)
Definition onShowDetails (m : TableViewerModel) : option Exception :=
  match exception m with
  | Some e => Some e
  | None => None
  end.

(** The events of a run of failed save attempts of the commit cycle waiting
    at [i], each answered with a retry, and what the outside sees of
    them. *)
Definition retries (i : nat) (es : list Exception) : list Event :=
  flat_map (fun e => [saveSettled i (rejected e); dialogClosed i true]) es.

Definition retry_outputs (diffs : list RowDiff) (es : list Exception)
  : list Output :=
  flat_map (fun e => [calls (onSaveChanges_catch e); calls (saveChanges diffs)])
           es.

(** The row returned for the last diff with row index [k]. *)
Definition last_row_for (k : nat) (diff : list RowDiff)
    (newRows : list TableRow) : option TableRow :=
  snd <$> last (filter (fun p => rowIndex p.1 = k) (zip diff newRows)).

(** The changes of chunk size among the notifications the grid received. *)
Definition notified_sizes (m : TableViewerModel) : list Z :=
  omap (fun c => match c with changeChunkSize n => Some n | _ => None end)
       (default [] (actions m)).

(** The stored exception, the details flag and the message fit together:
    a stored exception is a [GQLError] whose [hasDetails()] is the flag and
    whose text is the message unless the message was emptied since; with
    no exception stored the flag is down. *)
Definition error_state_coherent (m : TableViewerModel) : Prop :=
  match exception m with
  | Some (GQLError errorText details) =>
      hasDetails m = details /\ (errorMessage m = errorText \/ errorMessage m = "")
  | Some (JsError _ _) => False
  | None => hasDetails m = false
  end.

(** ** Setters and getters *)

Ltac model_cases :=
  repeat match goal with
         | m : TableViewerModel |- _ => destruct m
         | s : Machine |- _ => destruct s
         end; simpl in *.

Lemma notify_actions c m :
  actions (notify c m) = (fun log => log ++ [c]) <$> actions m.
Proof. by model_cases. Qed.

Lemma set_actions_twice a b m : set_actions a (set_actions b m) = set_actions a m.
Proof. by model_cases. Qed.

Lemma set_loader_twice a b m :
  set_isLoaderVisible a (set_isLoaderVisible b m) = set_isLoaderVisible a m.
Proof. by model_cases. Qed.

(** ** C9: the chunk size *)

(** C9. For every integer [c], [setChunkSize c] stores [fetchDefault = 200]
    when [c] is absent or zero, and otherwise [c] clamped into
    [[fetchMin, fetchMax] = [1, 5000]], which is [max 1 (min c 5000)]; the
    grid, when attached, is told the new size. *)
Theorem setChunkSize_clamps (c : Z) (m : TableViewerModel) :
  getChunkSize (setChunkSize None m) = 200 /\
  getChunkSize (setChunkSize (Some 0) m) = 200 /\
  getChunkSize (setChunkSize (Some c) m) =
    (if decide (c = 0) then fetchingSettings.fetchDefault
     else Z.max fetchingSettings.fetchMin (Z.min c fetchingSettings.fetchMax)) /\
  getChunkSize (setChunkSize (Some c) m) =
    (if decide (c = 0) then 200
     else if decide (c < 1) then 1
     else if decide (5000 < c) then 5000 else c) /\
  actions (setChunkSize (Some c) m) =
    (fun log => log ++ [changeChunkSize (getChunkSize (setChunkSize (Some c) m))])
      <$> actions m.
Proof.
  unfold getChunkSize, setChunkSize, updateChunkSize.
  rewrite !notify_actions.
  assert (Hsz : forall v, _chunkSize (notify (changeChunkSize (_chunkSize (set_chunkSize v m)))
                                   (set_chunkSize v m)) = v) by (intros; by model_cases).
  assert (Hact : forall v, actions (set_chunkSize v m) = actions m) by (intros; by model_cases).
  assert (Hget : forall v, _chunkSize (set_chunkSize v m) = v) by (intros; by model_cases).
  rewrite !Hsz, Hact, !Hget.
  unfold getDefaultRowsCount, fetchingSettings.fetchDefault,
    fetchingSettings.fetchMin, fetchingSettings.fetchMax.
  repeat split; try done.
  repeat case_decide; lia.
Qed.

(** The chunk size never leaves [[1, 5000]]. *)
Lemma getDefaultRowsCount_range (c : option Z) :
  1 <= getDefaultRowsCount c <= 5000.
Proof.
  unfold getDefaultRowsCount, fetchingSettings.fetchDefault,
    fetchingSettings.fetchMin, fetchingSettings.fetchMax.
  destruct c; repeat case_decide; lia.
Qed.

(** ** The fetch orchestrator *)

Lemma onRequestData_begin_hit rowOffset count m :
  TableDataModel.isChunkLoaded rowOffset count (tableDataModel m) = true
  \/ isFullyLoaded m = true ->
  onRequestData_begin rowOffset count m = inl (cache_answer rowOffset count m).
Proof.
  intros H. unfold onRequestData_begin.
  replace (_ || _) with true; [done|].
  symmetry. apply orb_true_iff. exact H.
Qed.

Lemma onRequestData_begin_miss rowOffset count m :
  TableDataModel.isChunkLoaded rowOffset count (tableDataModel m) = false ->
  _hasMoreRows m = true ->
  onRequestData_begin rowOffset count m =
    inr (set_isLoaderVisible (negb (noLoaderWhileRequestingDataAsync m)) m).
Proof.
  intros H1 H2. unfold onRequestData_begin, isFullyLoaded. by rewrite H1, H2.
Qed.

Lemma onRequestData_hit rowOffset count reply m :
  TableDataModel.isChunkLoaded rowOffset count (tableDataModel m) = true
  \/ isFullyLoaded m = true ->
  onRequestData rowOffset count reply m =
    (m, resolved (cache_answer rowOffset count m), false).
Proof.
  intros H. unfold onRequestData. by rewrite onRequestData_begin_hit.
Qed.

(** What a successful fetch does to [_hasMoreRows]. *)
Lemma fetch_hasMoreRows position resp m :
  _hasMoreRows (onRequestData_resume position (resolved resp) m).1 =
    if bool_decide (length (TableDataModel.getRows (tableDataModel m))
                    < position + length (IRequestDataResult.rows resp))%nat
    then negb (IRequestDataResult.isFullyLoaded resp)
    else _hasMoreRows m.
Proof.
  unfold onRequestData_resume, insertRows, clearErrors, updateInfo.
  destruct m; simpl. by repeat case_bool_decide.
Qed.

(** C8. Whenever [isChunkLoaded(offset, count)] holds or the table is fully
    loaded, [onRequestData] answers from the store (the chunk, the stored
    columns, the current fully-loaded flag), the remote fetch is not
    invoked whatever it would have replied, and the view-model, loader
    flag included, is exactly what it was; as an event of the machine the
    call adds nothing to what is in flight. *)
Theorem cache_hit_serves_from_store rowOffset count reply m waiting :
  TableDataModel.isChunkLoaded rowOffset count (tableDataModel m) = true
  \/ isFullyLoaded m = true ->
  onRequestData rowOffset count reply m =
    (m,
     resolved
       (IRequestedData.mk
          (TableDataModel.getChunk rowOffset count (tableDataModel m))
          (TableDataModel.getColumns (tableDataModel m))
          (isFullyLoaded m)),
     false) /\
  step (callRequestData rowOffset count) (mkMachine m waiting) =
    Some (mkMachine m waiting,
          returns
            (IRequestedData.mk
               (TableDataModel.getChunk rowOffset count (tableDataModel m))
               (TableDataModel.getColumns (tableDataModel m))
               (isFullyLoaded m))).
Proof.
  intros H. split.
  - by apply onRequestData_hit.
  - simpl. by rewrite onRequestData_begin_hit.
Qed.

Lemma cache_hit_serves_from_store_witness :
  onRequestData 1 2 (rejected denied) (vm loaded) =
    (vm loaded, resolved (IRequestedData.mk [["2"; "bob"]; ["3"; "cy"]]
                            sample_columns false), false) /\
  step (callRequestData 1 2) (mkMachine (vm loaded) [awaitFetch 4 4]) =
    Some (mkMachine (vm loaded) [awaitFetch 4 4],
          returns (IRequestedData.mk [["2"; "bob"]; ["3"; "cy"]]
                     sample_columns false)).
Proof.
  apply (cache_hit_serves_from_store 1 2 (rejected denied) (vm loaded)
           [awaitFetch 4 4]).
  left. vm_compute. reflexivity.
Defined.

Lemma requestWindows_fully_loaded calls m :
  isFullyLoaded m = true -> requestWindows calls m = m.
Proof.
  intros H. unfold requestWindows.
  induction calls as [|[[o c] r] calls IH]; [done|].
  simpl. rewrite onRequestData_hit by (by right). exact IH.
Qed.

(** C3. Once [isFullyLoaded] is true, no sequence of [onRequestData] calls,
    whatever the windows and whatever the remote would reply, changes the
    view-model: it stays fully loaded, and only [resetData] sets
    [_hasMoreRows] again.  A successful fetch whose rows do not reach past
    the current row count leaves [_hasMoreRows] as it was; one that extends
    the row count adopts the negation of the server's [isFullyLoaded]. *)
Theorem fully_loaded_is_sticky calls m position resp m0 :
  isFullyLoaded m = true ->
  requestWindows calls m = m /\
  isFullyLoaded (requestWindows calls m) = true /\
  isFullyLoaded (resetData m) = false /\
  ((position + length (IRequestDataResult.rows resp)
    <= length (TableDataModel.getRows (tableDataModel m0)))%nat ->
   _hasMoreRows (onRequestData_resume position (resolved resp) m0).1
   = _hasMoreRows m0) /\
  ((length (TableDataModel.getRows (tableDataModel m0))
    < position + length (IRequestDataResult.rows resp))%nat ->
   _hasMoreRows (onRequestData_resume position (resolved resp) m0).1
   = negb (IRequestDataResult.isFullyLoaded resp)).
Proof.
  intros H. rewrite requestWindows_fully_loaded by done.
  repeat split; try done.
  - unfold isFullyLoaded, resetData. by destruct m.
  - intros Hle. rewrite fetch_hasMoreRows. case_bool_decide; [lia|done].
  - intros Hlt. rewrite fetch_hasMoreRows. by case_bool_decide.
Qed.

Lemma fully_loaded_is_sticky_witness :
  (requestWindows [(0, 10, resolved sample_page); (7, 3, rejected denied)]%nat
     (vm complete) = vm complete /\
   isFullyLoaded (vm complete) = true) /\
  _hasMoreRows (onRequestData_resume 0 (resolved sample_page) (vm complete)).1
  = false /\
  _hasMoreRows (onRequestData_resume 4 (resolved last_page) (vm loaded)).1
  = false.
Proof.
  assert (Hfull : isFullyLoaded (vm complete) = true) by (vm_compute; reflexivity).
  pose proof (fully_loaded_is_sticky
                [(0, 10, resolved sample_page); (7, 3, rejected denied)]%nat
                (vm complete) 0%nat sample_page (vm complete) Hfull)
    as (Hsame & _ & _ & Hinside & _).
  pose proof (fully_loaded_is_sticky [] (vm complete) 4%nat last_page
                (vm loaded) Hfull) as (_ & _ & _ & _ & Hextends).
  split; [split; [exact Hsame | exact Hfull] | split].
  - rewrite Hinside; [reflexivity | vm_compute; lia].
  - rewrite Hextends; [reflexivity | vm_compute; lia].
Defined.

(** C10. A successful fetch that brings no rows at an offset not beyond
    the current row count leaves [_hasMoreRows] as it was, whatever the
    reply says about being fully loaded, and so does the whole call; a
    view-model constructed from an initial state without rows keeps the
    initial [_hasMoreRows = true].  Neither becomes fully loaded that
    way. *)
Theorem empty_response_keeps_hasMoreRows position count resp m noLoader :
  IRequestDataResult.rows resp = [] ->
  (position <= length (TableDataModel.getRows (tableDataModel m)))%nat ->
  _hasMoreRows (onRequestData_resume position (resolved resp) m).1
  = _hasMoreRows m /\
  _hasMoreRows (onRequestData position count (resolved resp) m).1.1
  = _hasMoreRows m /\
  isFullyLoaded (onRequestData position count (resolved resp) m).1.1
  = isFullyLoaded m /\
  _hasMoreRows (new_TableViewerModel (Some resp) noLoader) = true /\
  isFullyLoaded (new_TableViewerModel (Some resp) noLoader) = false.
Proof.
  intros Hrows Hpos.
  assert (Hresume : forall b,
    _hasMoreRows
      (onRequestData_resume position (resolved resp)
         (set_isLoaderVisible b m)).1 = _hasMoreRows m).
  { intros b. rewrite fetch_hasMoreRows, Hrows. destruct m; simpl in *.
    case_bool_decide; [lia|done]. }
  assert (Hcall :
    _hasMoreRows (onRequestData position count (resolved resp) m).1.1
    = _hasMoreRows m).
  { unfold onRequestData, onRequestData_begin.
    destruct (_ || _); simpl; [done|]. apply Hresume. }
  split; [|split; [exact Hcall|split]].
  - rewrite fetch_hasMoreRows, Hrows. case_bool_decide; [simpl in *; lia|done].
  - unfold isFullyLoaded. by rewrite Hcall.
  - unfold isFullyLoaded, new_TableViewerModel, insertRows, updateInfo.
    rewrite Hrows. simpl. done.
Qed.

Lemma empty_response_keeps_hasMoreRows_witness :
  _hasMoreRows (onRequestData_resume 4 (resolved empty_last_page) (vm loaded)).1
  = true /\
  isFullyLoaded (new_TableViewerModel (Some empty_last_page) false) = false.
Proof.
  pose proof (empty_response_keeps_hasMoreRows 4 4 empty_last_page (vm loaded)
                false eq_refl) as H.
  destruct H as (Hfetch & _ & _ & _ & Hnew); [vm_compute; lia|].
  split; [rewrite Hfetch; reflexivity | exact Hnew].
Defined.

(** The bound on the offset matters: past the row count an empty reply is
    an addition and its flag is adopted. *)
Example empty_response_past_the_end :
  isFullyLoaded (onRequestData 8 4 (resolved empty_last_page) (vm loaded)).1.1
  = true.
Proof. reflexivity. Qed.

(** ** Errors *)

Lemma updateAgGridRows_spec rows m :
  updateAgGridRows rows m =
    set_actions
      ((fun log => log ++ ((fun e => updateRowValue e.1 e.2) <$> rows))
         <$> actions m) m.
Proof.
  unfold updateAgGridRows. revert m.
  induction rows as [|e rows IH]; intros m; simpl.
  - destruct m as [? ? ? ? ? ? ? ? ? ? [log|] ?]; simpl; by rewrite ?app_nil_r.
  - rewrite IH. unfold notify. rewrite set_actions_twice. f_equal.
    destruct m as [? ? ? ? ? ? ? ? ? ? [log|] ?]; simpl; [|done].
    by rewrite <- app_assoc.
Qed.

(** What a successful fetch and a successful save leave of the error
    state. *)
Lemma fetch_success_errors position resp m :
  let f := (onRequestData_resume position (resolved resp) m).1 in
  errorMessage f = "" /\ hasDetails f = hasDetails m
  /\ exception f = exception m.
Proof.
  unfold onRequestData_resume, insertRows, clearErrors, updateInfo.
  destruct m; simpl. by case_bool_decide.
Qed.

Lemma save_success_errors diffs data m m' :
  trySaveChanges diffs (resolved data) m = (m', None) ->
  errorMessage m' = "" /\ hasDetails m' = hasDetails m
  /\ exception m' = exception m.
Proof.
  unfold trySaveChanges, trySaveChanges_begin, trySaveChanges_resume.
  destruct (zipDiffAndResults _ _) as [someRows|e]; [|done].
  intros [= <-]. rewrite updateAgGridRows_spec.
  unfold clearErrors, updateInfo. by destruct m.
Qed.

(** C2, as the code has it. A successful fetch and a successful save empty
    [errorMessage] by the time they complete; [hasDetails] and the stored
    exception are not touched by either and keep what the last failed
    fetch left there. *)
Theorem success_clears_errorMessage position resp diffs data m m' :
  trySaveChanges diffs (resolved data) m = (m', None) ->
  (errorMessage (onRequestData_resume position (resolved resp) m).1 = "" /\
   hasDetails (onRequestData_resume position (resolved resp) m).1
   = hasDetails m /\
   exception (onRequestData_resume position (resolved resp) m).1
   = exception m) /\
  (errorMessage m' = "" /\ hasDetails m' = hasDetails m
   /\ exception m' = exception m).
Proof.
  intros Hsave. split.
  - apply fetch_success_errors.
  - by eapply save_success_errors.
Qed.

Lemma success_clears_errorMessage_witness :
  errorMessage
    (onRequestData_resume 0 (resolved sample_page) (vm failed_first)).1 = "" /\
  hasDetails
    (onRequestData_resume 0 (resolved sample_page) (vm failed_first)).1 = true /\
  hasDetails (trySaveChanges [] (resolved empty_last_page) (vm failed_first)).1
  = true.
Proof.
  pose proof (success_clears_errorMessage 0 sample_page [] empty_last_page
                (vm failed_first) _ eq_refl)
    as ((Hmsg & Hdet & _) & (_ & Hdet' & _)).
  split; [exact Hmsg | split; [exact Hdet | exact Hdet']].
Defined.

(** C2, as stated, fails: after a fetch that failed with a detailed remote
    error, the next successful fetch, and likewise the next successful
    save, completes with [hasDetails] still set and the exception still
    stored. *)
Lemma stale_error_details_counterexample :
  (exists s,
     run failed_then_fetched (boot None false)
     = Some (s, [completes; calls (requestDataAsync 0 4); throws denied;
                 calls (requestDataAsync 0 4);
                 returns (IRequestedData.mk (IRequestDataResult.rows sample_page)
                            sample_columns false)]) /\
     hasDetails (vm s) = true /\ exception (vm s) = Some denied /\
     ~ errors_cleared (vm s)) /\
  (exists s,
     run failed_then_saved loaded
     = Some (s, [calls (requestDataAsync 4 4); throws denied; completes;
                 calls (saveChanges [mkRowDiff 1 ["2"; "bob"] ["2"; "bea"]]);
                 completes]) /\
     hasDetails (vm s) = true /\ exception (vm s) = Some denied /\
     ~ errors_cleared (vm s)).
Proof.
  split; eexists; (split; [vm_compute; reflexivity|]);
    (split; [reflexivity|]); (split; [reflexivity|]);
    intros (_ & H & _); vm_compute in H; discriminate.
Qed.

(** C7, as the code has it. [resetData] empties the rows, the status
    message and [errorMessage], zeroes the duration and sets
    [_hasMoreRows]; it leaves [hasDetails], the stored exception, the
    columns, the chunk size, the loader flag and the pending edits as they
    were.  The next [onRequestData(0, count)] with a positive [count] goes
    to the remote, as on a view-model that has just been constructed, and
    the two agree on what is returned and on rows, [_hasMoreRows],
    [errorMessage], status, duration and loader flag afterwards. *)
Theorem resetData_then_first_window m count reply :
  (0 < count)%nat ->
  (TableDataModel.getRows (tableDataModel (resetData m)) = [] /\
   requestStatusMessage (resetData m) = "" /\
   queryDuration (resetData m) = 0 /\
   errorMessage (resetData m) = "" /\
   _hasMoreRows (resetData m) = true) /\
  (hasDetails (resetData m) = hasDetails m /\
   exception (resetData m) = exception m /\
   TableDataModel.getColumns (tableDataModel (resetData m))
   = TableDataModel.getColumns (tableDataModel m) /\
   _chunkSize (resetData m) = _chunkSize m /\
   _isLoaderVisible (resetData m) = _isLoaderVisible m /\
   tableEditor (resetData m) = tableEditor m) /\
  (let a := onRequestData 0 count reply (resetData m) in
   let b := onRequestData 0 count reply
              (new_TableViewerModel None (noLoaderWhileRequestingDataAsync m)) in
   a.2 = true /\ b.2 = true /\ a.1.2 = b.1.2 /\
   TableDataModel.getRows (tableDataModel a.1.1)
   = TableDataModel.getRows (tableDataModel b.1.1) /\
   _hasMoreRows a.1.1 = _hasMoreRows b.1.1 /\
   errorMessage a.1.1 = errorMessage b.1.1 /\
   requestStatusMessage a.1.1 = requestStatusMessage b.1.1 /\
   queryDuration a.1.1 = queryDuration b.1.1 /\
   _isLoaderVisible a.1.1 = _isLoaderVisible b.1.1).
Proof.
  intros Hcount.
  split; [by destruct m as [? ? ? ? ? ? ? ? [? ?] ? [?|] ?]|].
  split; [by destruct m as [? ? ? ? ? ? ? ? [? ?] ? [?|] ?]|].
  assert (Hmiss : forall cols,
    TableDataModel.isChunkLoaded 0 count (TableDataModel.mk [] cols) = false).
  { intros cols. destruct count; [lia|]. reflexivity. }
  unfold onRequestData.
  rewrite !onRequestData_begin_miss;
    try (destruct m as [? ? ? ? ? ? ? ? [? ?] ? [?|] ?]; simpl; first [apply Hmiss | reflexivity]).
  unfold onRequestData_resume, insertRows, clearErrors, updateInfo, showError.
  destruct reply as [resp|[]];
    destruct m as [? ? ? ? ? ? ? ? [? ?] ? [?|] ?]; simpl;
    repeat case_bool_decide; done.
Qed.

Lemma resetData_then_first_window_witness :
  TableDataModel.getRows (tableDataModel (resetData (vm complete))) = [] /\
  _hasMoreRows (resetData (vm complete)) = true /\
  (onRequestData 0 4 (resolved sample_page) (resetData (vm complete))).2 = true.
Proof.
  pose proof (resetData_then_first_window (vm complete) 4 (resolved sample_page))
    as H.
  destruct H as ((Hrows & _ & _ & _ & Hmore) & _ & (Hremote & _)); [lia|].
  split; [exact Hrows | split; [exact Hmore | exact Hremote]].
Defined.

(** C7, as stated, fails: a refresh after a fetch that failed with a
    detailed remote error leaves [hasDetails] set and the exception stored,
    which a view-model that has just been constructed does not have. *)
Lemma resetData_keeps_details_counterexample :
  exists s,
    run failed_then_refreshed (boot None false)
    = Some (s, [completes; calls (requestDataAsync 0 4); throws denied;
                completes]) /\
    hasDetails (vm s) = true /\
    hasDetails (new_TableViewerModel None false) = false /\
    exception (vm s) = Some denied /\
    exception (new_TableViewerModel None false) = None /\
    vm s <> set_actions (actions (vm s)) (new_TableViewerModel None false).
Proof.
  eexists. split; [vm_compute; reflexivity|].
  repeat (split; [reflexivity|]). vm_compute. discriminate.
Qed.

(** ** Maps of rows and the store *)

Lemma map_set_fresh k v (m : SomeTableRows) :
  k ∉ m.*1 -> map_set k v m = m ++ [(k, v)].
Proof.
  induction m as [|[k' v'] m IH]; simpl; [done|].
  intros Hk. apply not_elem_of_cons in Hk as [Hne Hk].
  case_decide; [done|]. by rewrite IH.
Qed.

(** With pairwise distinct keys, the loop of [set] calls builds the map
    entry by entry, in the order of the array it runs over. *)
Lemma fold_map_set {A} (key : A -> nat) (val : A -> TableRow) (l : list A)
    (acc : SomeTableRows) :
  NoDup (acc.*1 ++ (key <$> l)) ->
  foldl (fun acc x => map_set (key x) (val x) acc) acc l
  = acc ++ ((fun x => (key x, val x)) <$> l).
Proof.
  revert acc. induction l as [|a l IH]; intros acc Hnd; simpl.
  - by rewrite app_nil_r.
  - simpl in Hnd. rewrite map_set_fresh.
    + rewrite IH.
      * by rewrite <- app_assoc.
      * rewrite fmap_app. simpl. by rewrite <- app_assoc.
    + apply NoDup_app in Hnd as (_ & Hdisj & _).
      intros Hin. apply (Hdisj _ Hin). left.
Qed.

Lemma getRow_array_set i r rs j :
  TableDataModel.getRow (TableDataModel.array_set i r rs) j
  = if decide (i = j) then Some r else TableDataModel.getRow rs j.
Proof.
  unfold TableDataModel.getRow, TableDataModel.array_set.
  destruct (decide (i < length rs)%nat) as [Hlt|Hge].
  - case_decide as Hij.
    + subst j. by rewrite list_lookup_insert_eq.
    + by rewrite list_lookup_insert_ne.
  - destruct (decide (j < length rs)%nat) as [Hj|Hj].
    + rewrite lookup_app_l by done. case_decide; [lia|done].
    + rewrite lookup_app_r by lia.
      rewrite (lookup_ge_None_2 rs j) by lia.
      destruct (decide (j - length rs < i - length rs)%nat) as [Hin|Hout].
      * rewrite lookup_app_l by (by rewrite length_replicate).
        rewrite lookup_replicate_2 by done. case_decide; [lia|done].
      * rewrite lookup_app_r by (rewrite length_replicate; lia).
        rewrite length_replicate. case_decide as Hij.
        -- subst j. by replace (i - length rs - (i - length rs))%nat with 0%nat by lia.
        -- rewrite lookup_ge_None_2; [done|]. simpl. lia.
Qed.

Lemma updateRows_other (mapping : SomeTableRows) rs k :
  k ∉ mapping.*1 ->
  TableDataModel.getRow
    (foldl (fun acc e => TableDataModel.array_set e.1 e.2 acc) rs mapping) k
  = TableDataModel.getRow rs k.
Proof.
  revert rs. induction mapping as [|[k' v'] mapping IH]; intros rs Hk; [done|].
  simpl in *. apply not_elem_of_cons in Hk as [Hne Hk].
  rewrite IH by done. rewrite getRow_array_set. by case_decide.
Qed.

Lemma updateRows_written (mapping : SomeTableRows) rs k v :
  NoDup mapping.*1 -> (k, v) ∈ mapping ->
  TableDataModel.getRow
    (foldl (fun acc e => TableDataModel.array_set e.1 e.2 acc) rs mapping) k
  = Some v.
Proof.
  revert rs. induction mapping as [|[k' v'] mapping IH]; intros rs Hnd Hin.
  - by apply elem_of_nil in Hin.
  - simpl in *. apply NoDup_cons in Hnd as [Hfresh Hnd].
    apply elem_of_cons in Hin as [[= -> ->]|Hin].
    + rewrite updateRows_other by done. rewrite getRow_array_set.
      by case_decide.
    + by apply IH.
Qed.

Lemma zipDiffAndResults_unique diffs (newRows : list TableRow) :
  TableEditor.unique_rows diffs -> length newRows = length diffs ->
  zipDiffAndResults diffs newRows
  = resolved ((fun p => (rowIndex p.1, p.2)) <$> zip diffs newRows).
Proof.
  intros Hnd Hlen. unfold zipDiffAndResults.
  case_decide; [congruence|]. f_equal.
  rewrite (fold_map_set (fun p => rowIndex p.1) (fun p => p.2)); [done|].
  simpl.
  replace ((fun p : RowDiff * TableRow => rowIndex p.1) <$> zip diffs newRows)
    with (rowIndex <$> (zip diffs newRows).*1)
    by (by rewrite <- list_fmap_compose).
  rewrite fst_zip by lia. exact Hnd.
Qed.

Lemma zipDiffAndResults_mismatch diffs (newRows : list TableRow) :
  length newRows ≠ length diffs ->
  zipDiffAndResults diffs newRows = rejected length_mismatch.
Proof.
  intros Hlen. unfold zipDiffAndResults. case_decide; [done|congruence].
Qed.

Lemma zip_keys diffs (newRows : list TableRow) :
  length newRows = length diffs ->
  ((fun p : RowDiff * TableRow => (rowIndex p.1, p.2)) <$> zip diffs newRows).*1
  = rowIndex <$> diffs.
Proof.
  intros Hlen. rewrite <- (fst_zip diffs newRows) at 2 by lia.
  rewrite <- !list_fmap_compose. done.
Qed.

(** ** The save/reconcile controller *)

(** C4. A save that returns as many rows as there are diffs completes the
    commit cycle: the i-th returned row stands in the store at the i-th
    diff's [rowIndex] and is forwarded to the grid at that index, in order,
    for every i; rows at other indices are as before; the pending set is
    empty, status and duration are those of the reply, [errorMessage] is
    empty and the loader flag is down. *)
Theorem save_success_reconciles diffs data m waiting i :
  TableEditor.unique_rows diffs ->
  length (IRequestDataResult.rows data) = length diffs ->
  waiting !! i = Some (awaitSave diffs) ->
  exists m',
    trySaveChanges_resume diffs (resolved data) m = (m', None) /\
    step (saveSettled i (resolved data)) (mkMachine m waiting)
    = Some (mkMachine m' (delete i waiting), completes) /\
    (forall j d r,
        diffs !! j = Some d -> IRequestDataResult.rows data !! j = Some r ->
        TableDataModel.getRow (TableDataModel.getRows (tableDataModel m'))
          (rowIndex d) = Some r) /\
    (forall k,
        k ∉ rowIndex <$> diffs ->
        TableDataModel.getRow (TableDataModel.getRows (tableDataModel m')) k
        = TableDataModel.getRow (TableDataModel.getRows (tableDataModel m)) k) /\
    actions m' =
      (fun log =>
         log ++ ((fun p => updateRowValue (rowIndex p.1) p.2)
                   <$> zip diffs (IRequestDataResult.rows data)))
        <$> actions m /\
    tableEditor m' = [] /\
    requestStatusMessage m' = IRequestDataResult.statusMessage data /\
    queryDuration m' = default 0 (IRequestDataResult.duration data) /\
    errorMessage m' = "" /\
    _isLoaderVisible m' = false.
Proof.
  intros Hnd Hlen Hwait.
  pose proof (zipDiffAndResults_unique diffs _ Hnd Hlen) as Hzip.
  pose proof (zip_keys diffs _ Hlen) as Hkeys.
  set (mapping := (fun p : RowDiff * TableRow => (rowIndex p.1, p.2))
                    <$> zip diffs (IRequestDataResult.rows data)) in *.
  eexists. split; [|split].
  - unfold trySaveChanges_resume. rewrite Hzip. reflexivity.
  - simpl. rewrite Hwait. unfold trySaveChanges_resume. rewrite Hzip.
    reflexivity.
  - rewrite updateAgGridRows_spec.
    unfold clearErrors, updateInfo, TableEditor.cancelChanges.
    destruct m as [? ? ? ? ? ? ? ? [rs cols] ? log ?]; simpl.
    repeat split; try done.
    + intros j d r Hd Hr. apply updateRows_written.
      * rewrite Hkeys. exact Hnd.
      * apply (list_elem_of_fmap_2' _ _ (d, r)); [|done].
        apply (list_elem_of_lookup_2 _ j).
        rewrite lookup_zip_with, Hd. simpl. by rewrite Hr.
    + intros k Hk. apply updateRows_other. by rewrite Hkeys.
    + unfold mapping. by rewrite <- list_fmap_compose.
Qed.

Lemma save_success_reconciles_witness :
  exists m',
    trySaveChanges_resume two_diffs (resolved saved_two) (vm edited_twice)
    = (m', None) /\
    TableDataModel.getRow (TableDataModel.getRows (tableDataModel m')) 1
    = Some ["2"; "bea"] /\
    TableDataModel.getRow (TableDataModel.getRows (tableDataModel m')) 3
    = Some ["4"; "dot"] /\
    actions m'
    = Some [updateRowValue 1 ["2"; "bea"]; updateRowValue 3 ["4"; "dot"]].
Proof.
  destruct (save_success_reconciles two_diffs saved_two (vm edited_twice)
              [awaitSave two_diffs] 0)
    as (m' & Hrun & _ & Hrows & _ & Hgrid & _).
  - by apply (bool_decide_unpack _).
  - reflexivity.
  - reflexivity.
  - exists m'. split; [exact Hrun|]. split; [|split].
    + exact (Hrows 0%nat (mkRowDiff 1 ["2"; "bob"] ["2"; "bea"]) _ eq_refl eq_refl).
    + exact (Hrows 1%nat (mkRowDiff 3 ["4"; "dee"] ["4"; "dot"]) _ eq_refl eq_refl).
    + rewrite Hgrid. reflexivity.
Defined.

Lemma revertChanges_spec diffs m :
  TableEditor.unique_rows diffs ->
  revertChanges diffs m =
    set_actions
      ((fun log =>
          log ++ ((fun d => updateRowValue (rowIndex d) (source d)) <$> diffs))
         <$> actions m)
      (set_tableEditor [] m).
Proof.
  intros Hnd. unfold revertChanges, TableEditor.cancelChanges.
  rewrite updateAgGridRows_spec.
  rewrite (fold_map_set rowIndex source) by exact Hnd. simpl.
  rewrite <- list_fmap_compose. by destruct m.
Qed.

(** C5. When the user declines the retry after a failed save attempt, and
    likewise on edit cancel, the pending set is emptied, the grid receives
    [updateRowValue(rowIndex, source)] for each diff, in order, and the row
    store is what it was. *)
Theorem revert_restores_sources diffs e m waiting i :
  TableEditor.unique_rows diffs ->
  TableEditor.unique_rows (TableEditor.getChanges (tableEditor m)) ->
  waiting !! i = Some (awaitDialog diffs e) ->
  (exists m',
     step (dialogClosed i false) (mkMachine m waiting)
     = Some (mkMachine m' (delete i waiting), completes) /\
     reverted diffs m m') /\
  reverted (TableEditor.getChanges (tableEditor m)) m (onEditCancel m).
Proof.
  intros Hnd Hpending Hwait. split.
  - eexists. split.
    + simpl. rewrite Hwait. reflexivity.
    + rewrite revertChanges_spec by done. unfold reverted. by destruct m.
  - unfold onEditCancel. rewrite revertChanges_spec by done.
    unfold reverted. by destruct m.
Qed.

Lemma revert_restores_sources_witness :
  (exists m',
     step (dialogClosed 0 false)
       (mkMachine (vm edited_twice) [awaitDialog two_diffs denied])
     = Some (mkMachine m' [], completes) /\
     reverted two_diffs (vm edited_twice) m') /\
  reverted two_diffs (vm edited_twice) (onEditCancel (vm edited_twice)).
Proof.
  apply (revert_restores_sources two_diffs denied (vm edited_twice)
           [awaitDialog two_diffs denied] 0).
  - by apply (bool_decide_unpack _).
  - by apply (bool_decide_unpack _).
  - reflexivity.
Defined.

(** C1, as the code has it. When the save returns a rows array whose
    length differs from that of the diffs, the attempt throws before any
    write: store, pending set, status, duration, error state and grid are
    what they were, and the loader flag is down.  The commit cycle handles
    that exception as it handles a save rejected with the same generic
    error: it opens the retry dialog, without details, and a retry calls
    the save collaborator again with the same diffs. *)
Theorem length_mismatch_fails_the_attempt diffs data m waiting i :
  length (IRequestDataResult.rows data) ≠ length diffs ->
  waiting !! i = Some (awaitSave diffs) ->
  trySaveChanges_resume diffs (resolved data) m
  = (set_isLoaderVisible false m, Some length_mismatch) /\
  (tableDataModel (trySaveChanges_resume diffs (resolved data) m).1
   = tableDataModel m /\
   tableEditor (trySaveChanges_resume diffs (resolved data) m).1
   = tableEditor m /\
   requestStatusMessage (trySaveChanges_resume diffs (resolved data) m).1
   = requestStatusMessage m /\
   queryDuration (trySaveChanges_resume diffs (resolved data) m).1
   = queryDuration m /\
   errorMessage (trySaveChanges_resume diffs (resolved data) m).1
   = errorMessage m /\
   actions (trySaveChanges_resume diffs (resolved data) m).1 = actions m) /\
  trySaveChanges_resume diffs (resolved data) m
  = trySaveChanges_resume diffs (rejected length_mismatch) m /\
  step (saveSettled i (resolved data)) (mkMachine m waiting)
  = Some (mkMachine (set_isLoaderVisible false m)
            (<[i := awaitDialog diffs length_mismatch]> waiting),
          calls (openErrorDialog
                   "Error: expected that new rows have same length as diff"
                   false)) /\
  step (dialogClosed i true)
    (mkMachine (set_isLoaderVisible false m)
       (<[i := awaitDialog diffs length_mismatch]> waiting))
  = Some (mkMachine (set_isLoaderVisible true m) waiting,
          calls (saveChanges diffs)).
Proof.
  intros Hlen Hwait.
  assert (Hrun : trySaveChanges_resume diffs (resolved data) m
                 = (set_isLoaderVisible false m, Some length_mismatch)).
  { unfold trySaveChanges_resume. by rewrite zipDiffAndResults_mismatch. }
  rewrite Hrun. split; [done|]. split; [by destruct m|]. split; [done|].
  split.
  - cbn [step vm inflight]. by rewrite Hwait, Hrun.
  - cbn [step vm inflight].
    rewrite list_lookup_insert_eq by (by eapply lookup_lt_Some).
    cbn [onSaveChanges_answer]. unfold trySaveChanges_begin.
    rewrite set_loader_twice, list_insert_insert_eq.
    by rewrite (list_insert_id waiting i).
Qed.

Lemma length_mismatch_fails_the_attempt_witness :
  trySaveChanges_resume two_diffs (resolved saved_one) (vm edited_twice)
  = (set_isLoaderVisible false (vm edited_twice), Some length_mismatch) /\
  step (saveSettled 0 (resolved saved_one))
    (mkMachine (vm edited_twice) [awaitSave two_diffs])
  = Some (mkMachine (set_isLoaderVisible false (vm edited_twice))
            [awaitDialog two_diffs length_mismatch],
          calls (openErrorDialog
                   "Error: expected that new rows have same length as diff"
                   false)).
Proof.
  destruct (length_mismatch_fails_the_attempt two_diffs saved_one
              (vm edited_twice) [awaitSave two_diffs] 0)
    as (Hrun & _ & _ & Hstep & _).
  - simpl. lia.
  - reflexivity.
  - split; [exact Hrun | exact Hstep].
Defined.

(** C1, as stated, fails: with two pending diffs and a save that returns
    one row, the cycle does not abort.  The user is asked whether to retry;
    on a retry the save collaborator is called again and its rows are
    written to the store, and on a decline the pending set is emptied and
    the grid is told to put the source rows back, step for step as after a
    save rejected with a generic error. *)
Lemma length_mismatch_is_retried_counterexample :
  length (IRequestDataResult.rows saved_one) ≠ length two_diffs /\
  (exists s,
     run [callEditSave; saveSettled 0 (resolved saved_one);
          dialogClosed 0 true; saveSettled 0 (resolved saved_two)]
       edited_twice
     = Some (s, [calls (saveChanges two_diffs);
                 calls (openErrorDialog
                          "Error: expected that new rows have same length as diff"
                          false);
                 calls (saveChanges two_diffs);
                 completes]) /\
     tableDataModel (vm s) <> tableDataModel (vm edited_twice) /\
     tableEditor (vm s) = [] /\
     requestStatusMessage (vm s) = "2 rows updated") /\
  (exists s,
     run [callEditSave; saveSettled 0 (resolved saved_one);
          dialogClosed 0 false] edited_twice
     = Some (s, [calls (saveChanges two_diffs);
                 calls (openErrorDialog
                          "Error: expected that new rows have same length as diff"
                          false);
                 completes]) /\
     tableEditor (vm edited_twice) = two_diffs /\
     tableEditor (vm s) = [] /\
     actions (vm edited_twice) = Some [] /\
     actions (vm s)
     = Some [updateRowValue 1 ["2"; "bob"]; updateRowValue 3 ["4"; "dee"]]) /\
  run [callEditSave; saveSettled 0 (resolved saved_one); dialogClosed 0 false]
    edited_twice
  = run [callEditSave; saveSettled 0 (rejected length_mismatch);
         dialogClosed 0 false] edited_twice.
Proof.
  split; [simpl; lia|]. split; [|split].
  - eexists. split; [vm_compute; reflexivity|].
    split; [vm_compute; discriminate|]. split; reflexivity.
  - eexists. split; [vm_compute; reflexivity|]. repeat split; reflexivity.
  - vm_compute. reflexivity.
Qed.

(** ** The loader flag *)

Lemma loader_new initialState noLoader :
  _isLoaderVisible (new_TableViewerModel initialState noLoader) = false.
Proof.
  unfold new_TableViewerModel, insertRows, updateInfo.
  by destruct initialState.
Qed.

Lemma loader_fetch_settled rowOffset reply m :
  _isLoaderVisible (onRequestData_resume rowOffset reply m).1 = false.
Proof.
  unfold onRequestData_resume, insertRows, clearErrors, updateInfo, showError.
  destruct reply as [resp|[]]; destruct m; simpl; by repeat case_bool_decide.
Qed.

Lemma loader_save_settled diffs reply m :
  _isLoaderVisible (trySaveChanges_resume diffs reply m).1 = false.
Proof.
  unfold trySaveChanges_resume.
  destruct reply as [data|e]; [|by destruct m].
  destruct (zipDiffAndResults _ _); [|by destruct m].
  rewrite updateAgGridRows_spec. unfold clearErrors, updateInfo.
  by destruct m.
Qed.

Lemma loader_revert diffs m :
  _isLoaderVisible (revertChanges diffs m) = _isLoaderVisible m.
Proof.
  unfold revertChanges. rewrite updateAgGridRows_spec. by destruct m.
Qed.

Lemma remote_after_delete (l : list Pending) i p :
  l !! i = Some p -> remote p = false ->
  existsb remote (delete i l) = existsb remote l.
Proof.
  revert i. induction l as [|q l IH]; intros [|i] Hi Hp; simpl in *; try done.
  - injection Hi as ->. by rewrite Hp.
  - by rewrite (IH i).
Qed.

Lemma remote_after_insert (l : list Pending) i p q :
  l !! i = Some q -> remote p = true ->
  existsb remote (<[i := p]> l) = true.
Proof.
  revert i. induction l as [|r l IH]; intros [|i] Hi Hp; simpl in *; try done.
  - by rewrite Hp.
  - rewrite (IH i) by done. apply orb_true_r.
Qed.

Lemma remote_after_append (l : list Pending) p :
  remote p = true -> existsb remote (l ++ [p]) = true.
Proof.
  intros Hp. rewrite existsb_app. simpl. rewrite Hp. apply orb_true_r.
Qed.

(** The loader flag is up only while a remote fetch or a remote save
    attempt is in flight. *)
Lemma loader_invariant s :
  reachable s -> _isLoaderVisible (vm s) = true -> remote_in_flight s = true.
Proof.
  unfold remote_in_flight.
  induction 1 as [initialState noLoader|s ev s' o Hreach IH Hstep].
  - simpl. by rewrite loader_new.
  - destruct s as [m waiting]. simpl in IH.
    destruct ev; cbn [step vm inflight] in Hstep.
    + injection Hstep as <- _. simpl. intros Hl. apply IH. by destruct m.
    + destruct (onRequestData_begin rowOffset count m) as [data|m1].
      * by injection Hstep as <- _.
      * injection Hstep as <- _. simpl. intros _. by apply remote_after_append.
    + injection Hstep as <- _. simpl. intros Hl. apply IH. by destruct m.
    + unfold onSaveChanges_begin in Hstep. case_bool_decide.
      * by injection Hstep as <- _.
      * injection Hstep as <- _. simpl. intros _. by apply remote_after_append.
    + injection Hstep as <- _. simpl. unfold onEditCancel.
      rewrite loader_revert. exact IH.
    + injection Hstep as <- _. simpl. intros Hl. apply IH.
      revert Hl. unfold setChunkSize, updateChunkSize. by destruct m.
    + injection Hstep as <- _. simpl. intros Hl. apply IH.
      revert Hl. unfold handleRefresh, resetData. by destruct m.
    + destruct (waiting !! i) as [[off cnt|?|? ?]|] eqn:Hi; try done.
      pose proof (loader_fetch_settled off reply m) as Hoff.
      destruct (onRequestData_resume off reply m) as [m1 r].
      injection Hstep as <- _. simpl in *. by rewrite Hoff.
    + destruct (waiting !! i) as [[? ?|diffs|? ?]|] eqn:Hi; try done.
      pose proof (loader_save_settled diffs reply m) as Hoff.
      destruct (trySaveChanges_resume diffs reply m) as [m1 [e|]];
        injection Hstep as <- _; simpl in *; by rewrite Hoff.
    + destruct (waiting !! i) as [[? ?|?|diffs e]|] eqn:Hi; try done.
      destruct tryAgain; cbn [onSaveChanges_answer] in Hstep;
        injection Hstep as <- _; simpl.
      * intros _. by eapply remote_after_insert.
      * rewrite loader_revert. intros Hl.
        rewrite (remote_after_delete _ _ _ Hi) by done. by apply IH.
Qed.

(** C6. In every state the machine can reach, the loader flag is up only
    while a remote fetch or a remote save attempt is in flight, and it is
    down whenever none is.  It is down after a fetch settles and after a
    save attempt settles, whether resolved or rejected, and so it is down
    when the failed attempt hands over to the retry dialog.  A save attempt
    starts with the flag up, a fetch with the flag up unless the caller
    opted out. *)
Theorem loader_only_while_remote_in_flight s :
  reachable s ->
  (isLoaderVisible (vm s) = true -> remote_in_flight s = true) /\
  (remote_in_flight s = false -> isLoaderVisible (vm s) = false) /\
  (forall i reply s' o,
      step (fetchSettled i reply) s = Some (s', o) ->
      isLoaderVisible (vm s') = false) /\
  (forall i reply s' o,
      step (saveSettled i reply) s = Some (s', o) ->
      isLoaderVisible (vm s') = false) /\
  (forall i reply s' c,
      step (saveSettled i reply) s = Some (s', calls c) ->
      isLoaderVisible (vm s') = false /\
      exists diffs e, inflight s' !! i = Some (awaitDialog diffs e)
                      /\ c = onSaveChanges_catch e) /\
  (forall rowOffset count s' c,
      step (callRequestData rowOffset count) s = Some (s', calls c) ->
      isLoaderVisible (vm s')
      = negb (noLoaderWhileRequestingDataAsync (vm s))) /\
  (forall s' c,
      step callEditSave s = Some (s', calls c) ->
      isLoaderVisible (vm s') = true) /\
  (forall i s' c,
      step (dialogClosed i true) s = Some (s', calls c) ->
      isLoaderVisible (vm s') = true).
Proof.
  intros Hreach. unfold isLoaderVisible.
  pose proof (loader_invariant s Hreach) as Hinv.
  destruct s as [m waiting]. cbn [vm inflight] in *.
  assert (Hsave : forall i reply s' o,
    step (saveSettled i reply) (mkMachine m waiting) = Some (s', o) ->
    _isLoaderVisible (vm s') = false).
  { intros i reply s' o Hstep. cbn [step vm inflight] in Hstep.
    destruct (waiting !! i) as [[? ?|diffs|? ?]|] eqn:Hi; try done.
    pose proof (loader_save_settled diffs reply m) as Hoff.
    destruct (trySaveChanges_resume diffs reply m) as [m1 [e|]];
      by injection Hstep as <- _. }
  split; [exact Hinv|]. split.
  { intros Hnone. destruct (_isLoaderVisible m) eqn:Hl; [|done].
    rewrite Hinv in Hnone; done. }
  split.
  { intros i reply s' o Hstep. cbn [step vm inflight] in Hstep.
    destruct (waiting !! i) as [[off cnt|?|? ?]|] eqn:Hi; try done.
    pose proof (loader_fetch_settled off reply m) as Hoff.
    destruct (onRequestData_resume off reply m) as [m1 r].
    by injection Hstep as <- _. }
  split; [exact Hsave|]. split.
  { intros i reply s' c Hstep. split; [by eapply Hsave|].
    cbn [step vm inflight] in Hstep.
    destruct (waiting !! i) as [[? ?|diffs|? ?]|] eqn:Hi; try done.
    destruct (trySaveChanges_resume diffs reply m) as [m1 [e|]]; [|done].
    injection Hstep as <- <-. exists diffs, e. split; [|done].
    simpl. apply list_lookup_insert_eq. by eapply lookup_lt_Some. }
  split.
  { intros rowOffset count s' c Hstep. cbn [step vm inflight] in Hstep.
    unfold onRequestData_begin in Hstep.
    destruct (_ || _); [done|]. injection Hstep as <- _. by destruct m. }
  split.
  { intros s' c Hstep. cbn [step vm inflight] in Hstep.
    unfold onSaveChanges_begin in Hstep.
    case_bool_decide; [done|]. injection Hstep as <- _. by destruct m. }
  intros i s' c Hstep. cbn [step vm inflight] in Hstep.
  destruct (waiting !! i) as [[? ?|?|diffs e]|] eqn:Hi; try done.
  cbn [onSaveChanges_answer] in Hstep. injection Hstep as <- _. by destruct m.
Qed.

Lemma run_reachable evs s s' outs :
  reachable s -> run evs s = Some (s', outs) -> reachable s'.
Proof.
  revert s outs. induction evs as [|ev evs IH]; intros s outs Hreach Hrun.
  - simpl in Hrun. by injection Hrun as <- _.
  - simpl in Hrun. destruct (step ev s) as [[s1 o]|] eqn:Hstep; [|done].
    destruct (run evs s1) as [[s2 outs2]|] eqn:Hrest; [|done].
    simpl in Hrun. injection Hrun as <- _.
    eapply IH; [|exact Hrest]. by eapply reach_step.
Qed.

Lemma loader_only_while_remote_in_flight_witness :
  isLoaderVisible (vm fetching) = true /\
  remote_in_flight fetching = true /\
  (forall reply s' o,
      step (fetchSettled 0 reply) fetching = Some (s', o) ->
      isLoaderVisible (vm s') = false).
Proof.
  assert (Hreach : reachable fetching).
  { apply (run_reachable [gridAttached; callRequestData 0 4] (boot None false)
             fetching [completes; calls (requestDataAsync 0 4)]).
    - apply reach_boot.
    - vm_compute. reflexivity. }
  destruct (loader_only_while_remote_in_flight fetching Hreach)
    as (Hup & _ & Hfetch & _).
  split; [reflexivity|]. split; [apply Hup; reflexivity|].
  intros reply s' o. apply Hfetch.
Defined.

(** ** One diff per row *)

Lemma amend_rows row col value e e' :
  TableEditor.amend row col value e = Some e' ->
  rowIndex <$> e' = rowIndex <$> e.
Proof.
  revert e'. induction e as [|d e IH]; intros e' He; simpl in *; [done|].
  case_decide as Hd.
  - injection He as <-. rewrite !fmap_cons. simpl. by rewrite Hd.
  - destruct (TableEditor.amend row col value e) as [e1|]; [|done].
    injection He as <-. rewrite !fmap_cons. f_equal. by apply IH.
Qed.

Lemma amend_absent row col value e :
  TableEditor.amend row col value e = None -> row ∉ rowIndex <$> e.
Proof.
  induction e as [|d e IH]; simpl; [intros _; apply not_elem_of_nil|].
  case_decide as Hd; [done|].
  destruct (TableEditor.amend row col value e); [done|].
  intros _. apply not_elem_of_cons. split; [congruence|by apply IH].
Qed.

(** Editing keeps at most one diff per row, and the source of a row that
    already has a diff is the one taken at its first edit. *)
Lemma editCellValue_unique store row col value e :
  TableEditor.unique_rows e ->
  TableEditor.unique_rows (TableEditor.editCellValue store row col value e).
Proof.
  unfold TableEditor.unique_rows, TableEditor.editCellValue. intros Hnd.
  destruct (TableEditor.amend row col value e) as [e'|] eqn:He.
  - by rewrite (amend_rows _ _ _ _ _ He).
  - destruct (TableDataModel.getRow _ _); [|done].
    rewrite fmap_app. simpl. apply NoDup_app. split; [done|]. split.
    + intros x Hx Hin. apply list_elem_of_singleton in Hin as ->.
      by apply (amend_absent _ _ _ _ He).
    + apply NoDup_singleton.
Qed.

Lemma editor_fetch_settled rowOffset reply m :
  tableEditor (onRequestData_resume rowOffset reply m).1 = tableEditor m.
Proof.
  unfold onRequestData_resume, insertRows, clearErrors, updateInfo, showError.
  destruct reply as [resp|[]]; destruct m; simpl; by repeat case_bool_decide.
Qed.

Lemma editor_save_settled diffs reply m :
  tableEditor (trySaveChanges_resume diffs reply m).1 = tableEditor m
  \/ tableEditor (trySaveChanges_resume diffs reply m).1 = [].
Proof.
  unfold trySaveChanges_resume.
  destruct reply as [data|e]; [|left; by destruct m].
  destruct (zipDiffAndResults _ _); [|left; by destruct m].
  right. rewrite updateAgGridRows_spec. unfold clearErrors, updateInfo.
  by destruct m.
Qed.

Lemma editor_revert diffs m : tableEditor (revertChanges diffs m) = [].
Proof.
  unfold revertChanges. rewrite updateAgGridRows_spec. by destruct m.
Qed.

(** Every reachable state has at most one diff per row, in the tracker
    and in the diffs a suspended commit cycle holds. *)
Lemma reachable_diffs_unique s : reachable s -> diffs_unique s.
Proof.
  unfold diffs_unique, TableEditor.getChanges.
  induction 1 as [initialState noLoader|s ev s' o Hreach [IHe IHw] Hstep].
  - split; [|constructor].
    unfold boot, new_TableViewerModel, insertRows, updateInfo.
    destruct initialState; simpl; apply NoDup_nil_2.
  - destruct s as [m waiting]. cbn [vm inflight] in *.
    destruct ev; cbn [step vm inflight] in Hstep.
    + injection Hstep as <- _. split; [by destruct m|done].
    + destruct (onRequestData_begin rowOffset count m) as [data|m1] eqn:Hb.
      * by injection Hstep as <- _.
      * injection Hstep as <- _. cbn [vm inflight].
        unfold onRequestData_begin in Hb. destruct (_ || _); [done|].
        injection Hb as <-. split; [by destruct m|].
        apply Forall_app. split; [done|]. by repeat constructor.
    + injection Hstep as <- _. split; [|done]. cbn [vm].
      unfold onCellEditingStopped.
      replace (tableEditor (set_tableEditor _ m))
        with (TableEditor.editCellValue (tableDataModel m) rowNumber colNumber
                value (tableEditor m)) by (by destruct m).
      by apply editCellValue_unique.
    + unfold onSaveChanges_begin, TableEditor.getChanges in Hstep.
      case_bool_decide.
      * by injection Hstep as <- _.
      * injection Hstep as <- _. cbn [vm inflight].
        split; [by destruct m|].
        apply Forall_app. split; [done|]. by repeat constructor.
    + injection Hstep as <- _. split; [|done]. cbn [vm].
      unfold onEditCancel. rewrite editor_revert. apply NoDup_nil_2.
    + injection Hstep as <- _. split; [|done]. cbn [vm].
      unfold setChunkSize, updateChunkSize. by destruct m.
    + injection Hstep as <- _. split; [|done]. cbn [vm].
      unfold handleRefresh, resetData. by destruct m.
    + destruct (waiting !! i) as [[off cnt|?|? ?]|] eqn:Hi; try done.
      pose proof (editor_fetch_settled off reply m) as Hed.
      destruct (onRequestData_resume off reply m) as [m1 r].
      injection Hstep as <- _. cbn [vm inflight fst] in *.
      split; [by rewrite Hed|by apply Forall_delete].
    + destruct (waiting !! i) as [[? ?|diffs|? ?]|] eqn:Hi; try done.
      pose proof (editor_save_settled diffs reply m) as Hed.
      assert (Hd : TableEditor.unique_rows diffs).
      { apply (Forall_lookup_1 _ _ _ _ IHw Hi). }
      destruct (trySaveChanges_resume diffs reply m) as [m1 [e|]];
        injection Hstep as <- _; cbn [vm inflight fst] in *.
      * split; [destruct Hed as [->| ->]; [done|apply NoDup_nil_2]|].
        by apply Forall_insert.
      * split; [destruct Hed as [->| ->]; [done|apply NoDup_nil_2]|].
        by apply Forall_delete.
    + destruct (waiting !! i) as [[? ?|?|diffs e]|] eqn:Hi; try done.
      assert (Hd : TableEditor.unique_rows diffs).
      { apply (Forall_lookup_1 _ _ _ _ IHw Hi). }
      destruct tryAgain; cbn [onSaveChanges_answer] in Hstep;
        injection Hstep as <- _; cbn [vm inflight].
      * split; [by destruct m|]. by apply Forall_insert.
      * split; [rewrite editor_revert; apply NoDup_nil_2|].
        by apply Forall_delete.
Qed.

(** The scenario of the revert: one cell of row 2 edited, the save
    rejected, the retry declined.  The grid gets row 2 back as it was and
    nothing is pending. *)
Example declined_retry_restores_row_2 :
  exists s,
    run [callCellEditingStopped 2 0 "X"; callEditSave;
         saveSettled 0 (rejected denied); dialogClosed 0 false] loaded
    = Some (s, [completes;
                calls (saveChanges [mkRowDiff 2 ["3"; "cy"] ["X"; "cy"]]);
                calls (openErrorDialog "permission denied" true);
                completes]) /\
    tableEditor (vm s) = [] /\
    actions (vm s) = Some [updateRowValue 2 ["3"; "cy"]] /\
    tableDataModel (vm s) = tableDataModel (vm loaded) /\
    inflight s = [].
Proof. eexists. split; [vm_compute; reflexivity|]. repeat split. Qed.

(** Two edits of one row leave one diff, with the first source. *)
Example second_edit_keeps_the_source :
  TableEditor.editCellValue (tableDataModel (vm loaded)) 2 1 "cyd"
    (TableEditor.editCellValue (tableDataModel (vm loaded)) 2 0 "X" [])
  = [mkRowDiff 2 ["3"; "cy"] ["X"; "cyd"]].
Proof. reflexivity. Qed.

(** ** The store as a cache *)

Lemma getRow_write_from position new rs j :
  TableDataModel.getRow (TableDataModel.write_from position new rs) j
  = if decide (position <= j < position + length new)%nat
    then new !! (j - position)%nat
    else TableDataModel.getRow rs j.
Proof.
  revert position rs. induction new as [|r new IH]; intros position rs; simpl.
  - case_decide; [lia|done].
  - rewrite IH, getRow_array_set.
    destruct (decide (S position <= j < S position + length new)%nat).
    + rewrite decide_True by lia.
      by replace (j - position)%nat with (S (j - S position)) by lia.
    + destruct (decide (position = j)) as [->|Hne].
      * rewrite decide_True by lia. by rewrite Nat.sub_diag.
      * rewrite decide_False by lia. done.
Qed.

(** Cache correctness: after rows were inserted at [position], a window
    inside the inserted range is answered from the store and the remote
    fetch is not invoked. *)
Lemma inserted_range_is_served_from_cache position rows hasMore m o c reply :
  (position <= o)%nat -> (o + c <= position + length rows)%nat ->
  (onRequestData o c reply (insertRows position rows hasMore m)).2 = false /\
  (onRequestData o c reply (insertRows position rows hasMore m)).1.1
  = insertRows position rows hasMore m.
Proof.
  intros Hlo Hhi. rewrite onRequestData_hit; [done|]. left.
  unfold TableDataModel.isChunkLoaded. apply forallb_forall.
  intros j Hj. apply in_seq in Hj. apply bool_decide_eq_true.
  replace (TableDataModel.store_rows (tableDataModel (insertRows position rows hasMore m)))
    with (TableDataModel.write_from position rows
            (TableDataModel.store_rows (tableDataModel m)))
    by (unfold insertRows; by destruct m).
  rewrite getRow_write_from, decide_True by lia.
  apply lookup_lt_is_Some. lia.
Qed.

(** Serialized calls matter for the stickiness of [isFullyLoaded]: a reply
    to a fetch that was already in flight when the table became fully
    loaded, and that extends the row count, sets [_hasMoreRows] again. *)
Example late_reply_reopens :
  exists s1 s2 outs1 outs2,
    run [callRequestData 4 4; callRequestData 8 4;
         fetchSettled 0 (resolved last_page)] loaded = Some (s1, outs1) /\
    isFullyLoaded (vm s1) = true /\
    run [fetchSettled 0 (resolved sample_page)] s1 = Some (s2, outs2) /\
    isFullyLoaded (vm s2) = false.
Proof.
  do 4 eexists. split; [vm_compute; reflexivity|].
  split; [reflexivity|]. split; [vm_compute; reflexivity|]. reflexivity.
Qed.

(** ** Steps of the machine, operation by operation *)

(** The view-model after a step is the view-model before it, put through
    one method or one half of a method. *)
Lemma step_vm ev m waiting s' o :
  step ev (mkMachine m waiting) = Some (s', o) ->
  vm s' = m \/
  vm s' = set_actions (Some []) m \/
  (exists b, vm s' = set_isLoaderVisible b m) \/
  (exists rowOffset reply, vm s' = (onRequestData_resume rowOffset reply m).1) \/
  (exists diffs reply, vm s' = (trySaveChanges_resume diffs reply m).1) \/
  (exists diffs, vm s' = revertChanges diffs m) \/
  (exists count, vm s' = setChunkSize count m) \/
  vm s' = resetData m \/
  (exists r c v, vm s' = onCellEditingStopped r c v m).
Proof.
  intros Hstep. destruct ev; cbn [step vm inflight] in Hstep.
  - injection Hstep as <- _. right. by left.
  - unfold onRequestData_begin in Hstep. destruct (_ || _).
    + injection Hstep as <- _. by left.
    + injection Hstep as <- _. do 2 right. left. by eexists.
  - injection Hstep as <- _. do 8 right. by do 3 eexists.
  - unfold onSaveChanges_begin in Hstep. case_bool_decide.
    + injection Hstep as <- _. by left.
    + injection Hstep as <- _. do 2 right. left. by eexists.
  - injection Hstep as <- _. do 5 right. left. by eexists.
  - injection Hstep as <- _. do 6 right. left. by eexists.
  - injection Hstep as <- _. do 7 right. by left.
  - destruct (waiting !! i) as [[off cnt|?|? ?]|]; try done.
    destruct (onRequestData_resume off reply m) as [m1 r] eqn:Hr.
    injection Hstep as <- _. do 3 right. left. exists off, reply. by rewrite Hr.
  - destruct (waiting !! i) as [[? ?|diffs|? ?]|]; try done.
    destruct (trySaveChanges_resume diffs reply m) as [m1 [e|]] eqn:Hr;
      injection Hstep as <- _; do 4 right; left; exists diffs, reply;
      by rewrite Hr.
  - destruct (waiting !! i) as [[? ?|?|diffs e]|]; try done.
    destruct tryAgain; cbn [onSaveChanges_answer] in Hstep;
      injection Hstep as <- _.
    + do 2 right. left. by eexists.
    + do 5 right. left. by eexists.
Qed.

(** Unfolds the methods down to the setters and computes on the fields. *)
Ltac by_fields :=
  unfold onRequestData_resume, trySaveChanges_resume, revertChanges,
    setChunkSize, updateChunkSize, resetData, insertRows, clearErrors,
    updateInfo, showError, onCellEditingStopped, notify,
    TableEditor.cancelChanges;
  repeat match goal with
         | |- context [match ?r with resolved _ => _ | rejected _ => _ end] =>
             destruct r
         | |- context [match ?e with GQLError _ _ => _ | JsError _ _ => _ end] =>
             destruct e
         end;
  rewrite ?updateAgGridRows_spec;
  repeat match goal with m : TableViewerModel |- _ => destruct m end;
  simpl; repeat case_bool_decide; try done.

(** ** The chunk size *)

Lemma chunkSize_step ev m waiting s' o :
  step ev (mkMachine m waiting) = Some (s', o) ->
  _chunkSize (vm s') = _chunkSize m
  \/ exists count, _chunkSize (vm s') = getDefaultRowsCount count.
Proof.
  intros Hstep.
  destruct (step_vm _ _ _ _ _ Hstep)
    as [->|[->|[[b ->]|[(off & reply & ->)|[(diffs & reply & ->)|
        [[diffs ->]|[[count ->]|[->|(r & c & v & ->)]]]]]]]];
    try (left; by by_fields).
  right. exists count. by by_fields.
Qed.

(** A step either attaches the grid afresh or appends notifications to
    what the grid has received; a chunk size among them comes out of
    [getDefaultRowsCount]. *)
Lemma actions_step ev m waiting s' o :
  step ev (mkMachine m waiting) = Some (s', o) ->
  actions (vm s') = Some [] \/
  exists sent,
    actions (vm s') = (fun log => log ++ sent) <$> actions m /\
    forall n, changeChunkSize n ∈ sent -> exists count, n = getDefaultRowsCount count.
Proof.
  intros Hstep.
  assert (Hmap : forall (f : SomeTableRows) n,
    changeChunkSize n ∉ (fun e => updateRowValue e.1 e.2) <$> f).
  { intros f n Hin. apply list_elem_of_fmap in Hin as (e & He & _). done. }
  assert (Hnil : forall a : option (list GridCall),
    a = (fun log => log ++ []) <$> a).
  { intros [log|]; simpl; by rewrite ?app_nil_r. }
  destruct (step_vm _ _ _ _ _ Hstep)
    as [->|[->|[[b ->]|[(off & reply & ->)|[(diffs & reply & ->)|
        [[diffs ->]|[[count ->]|[->|(r & c & v & ->)]]]]]]]].
  - right. exists []. split; [apply Hnil|]. intros n Hn. by apply elem_of_nil in Hn.
  - left. by destruct m.
  - right. exists []. split; [destruct m; apply Hnil|].
    intros n Hn. by apply elem_of_nil in Hn.
  - right. exists []. split.
    + replace (actions (onRequestData_resume off reply m).1) with (actions m)
        by (by by_fields). apply Hnil.
    + intros n Hn. by apply elem_of_nil in Hn.
  - unfold trySaveChanges_resume. destruct reply as [data|e].
    + destruct (zipDiffAndResults diffs (IRequestDataResult.rows data))
        as [someRows|e].
      * right. exists ((fun e => updateRowValue e.1 e.2) <$> someRows). split.
        -- rewrite updateAgGridRows_spec. unfold clearErrors, updateInfo.
           by destruct m.
        -- intros n Hn. by apply Hmap in Hn.
      * right. exists []. split; [destruct m; apply Hnil|].
        intros n Hn. by apply elem_of_nil in Hn.
    + right. exists []. split; [destruct m; apply Hnil|].
      intros n Hn. by apply elem_of_nil in Hn.
  - right. unfold revertChanges. rewrite updateAgGridRows_spec.
    eexists. split; [by destruct m|]. intros n Hn. by apply Hmap in Hn.
  - right. exists [changeChunkSize (getDefaultRowsCount count)]. split.
    + unfold setChunkSize, updateChunkSize, notify. by destruct m.
    + intros n Hn. apply list_elem_of_singleton in Hn as [= ->]. by eexists.
  - right. exists [gridResetData]. split.
    + unfold resetData, notify. by destruct m.
    + intros n Hn. by apply list_elem_of_singleton in Hn.
  - right. exists []. split.
    + unfold onCellEditingStopped. destruct m. apply Hnil.
    + intros n Hn. by apply elem_of_nil in Hn.
Qed.

Lemma notified_sizes_spec m n :
  n ∈ notified_sizes m <->
  exists log, actions m = Some log /\ changeChunkSize n ∈ log.
Proof.
  unfold notified_sizes. rewrite list_elem_of_omap. split.
  - intros (c & Hc & Hn). destruct c; try done. injection Hn as ->.
    destruct (actions m) as [log|]; simpl in Hc; [by exists log|].
    by apply elem_of_nil in Hc.
  - intros (log & -> & Hin). by exists (changeChunkSize n).
Qed.

(** X1. Whatever the grid, the remote and the user do, the chunk size of
    the view-model stays within [[fetchMin, fetchMax] = [1, 5000]], and so
    does every chunk size the grid was notified of. *)
Theorem chunkSize_always_in_range s :
  reachable s ->
  fetchingSettings.fetchMin <= getChunkSize (vm s)
  <= fetchingSettings.fetchMax /\
  forall n, n ∈ notified_sizes (vm s) ->
            fetchingSettings.fetchMin <= n <= fetchingSettings.fetchMax.
Proof.
  unfold getChunkSize, fetchingSettings.fetchMin, fetchingSettings.fetchMax.
  induction 1
    as [initialState noLoader|[m waiting] ev s' o Hreach [IHc IHn] Hstep].
  - split.
    + replace (_chunkSize (vm (boot initialState noLoader)))
        with (getDefaultRowsCount None).
      * apply getDefaultRowsCount_range.
      * unfold boot, new_TableViewerModel, insertRows, updateInfo.
        by destruct initialState.
    + intros n Hn. apply notified_sizes_spec in Hn as (log & Hlog & _).
      revert Hlog. unfold boot, new_TableViewerModel, insertRows, updateInfo.
      by destruct initialState.
  - split.
    + destruct (chunkSize_step _ _ _ _ _ Hstep) as [->|[count ->]].
      * exact IHc.
      * apply getDefaultRowsCount_range.
    + intros n Hn. apply notified_sizes_spec in Hn as (log & Hlog & Hin).
      destruct (actions_step _ _ _ _ _ Hstep) as [Hnew|(sent & Hsent & Hsz)].
      * rewrite Hnew in Hlog. injection Hlog as <-. by apply elem_of_nil in Hin.
      * rewrite Hsent in Hlog. cbn [vm] in *.
        destruct (actions m) as [old|] eqn:Hold; [|done].
        injection Hlog as <-. apply elem_of_app in Hin as [Hin|Hin].
        -- apply IHn. apply notified_sizes_spec. by exists old.
        -- destruct (Hsz n Hin) as [count ->]. apply getDefaultRowsCount_range.
Qed.

Lemma chunkSize_always_in_range_witness :
  1 <= getChunkSize (vm complete) <= 5000.
Proof.
  assert (Hreach : reachable complete).
  { apply (run_reachable
             [gridAttached; callRequestData 0 4;
              fetchSettled 0 (resolved sample_page);
              callRequestData 4 4; fetchSettled 0 (resolved last_page)]
             (boot None false) complete
             [completes; calls (requestDataAsync 0 4);
              returns (IRequestedData.mk (IRequestDataResult.rows sample_page)
                         sample_columns false);
              calls (requestDataAsync 4 4);
              returns (IRequestedData.mk (IRequestDataResult.rows last_page)
                         sample_columns true)]).
    - apply reach_boot.
    - vm_compute. reflexivity. }
  destruct (chunkSize_always_in_range complete Hreach) as [Hsize _].
  exact Hsize.
Defined.

(** X2. Clamping a chunk size is idempotent, so feeding the stored chunk
    size back through [setChunkSize] does not change it; and it is
    monotone on the integers other than zero, zero alone being sent to the
    default. *)
Theorem getDefaultRowsCount_idempotent_monotone (c c' : Z) (count : option Z)
    (m : TableViewerModel) :
  getDefaultRowsCount (Some (getDefaultRowsCount count))
  = getDefaultRowsCount count /\
  getChunkSize (setChunkSize (Some (getChunkSize (setChunkSize count m)))
                  (setChunkSize count m))
  = getChunkSize (setChunkSize count m) /\
  (c <> 0 -> c' <> 0 -> c <= c' ->
   getDefaultRowsCount (Some c) <= getDefaultRowsCount (Some c')) /\
  getDefaultRowsCount (Some (-1)) < getDefaultRowsCount (Some 0) /\
  getDefaultRowsCount (Some 1) < getDefaultRowsCount (Some 0).
Proof.
  assert (Hidem : forall k,
    getDefaultRowsCount (Some (getDefaultRowsCount k)) = getDefaultRowsCount k).
  { intros k. pose proof (getDefaultRowsCount_range k) as Hr.
    unfold getDefaultRowsCount at 1.
    unfold fetchingSettings.fetchDefault, fetchingSettings.fetchMin,
      fetchingSettings.fetchMax.
    case_decide; lia. }
  split; [apply Hidem|]. split.
  - assert (Hget : forall k n, getChunkSize (setChunkSize k n)
                               = getDefaultRowsCount k)
      by (intros; unfold getChunkSize; by by_fields).
    by rewrite !Hget, Hidem.
  - split; [|split; reflexivity].
    intros Hc Hc' Hle.
    unfold getDefaultRowsCount, fetchingSettings.fetchDefault,
      fetchingSettings.fetchMin, fetchingSettings.fetchMax.
    repeat case_decide; lia.
Qed.

Lemma getDefaultRowsCount_idempotent_monotone_witness :
  getDefaultRowsCount (Some (-7)) <= getDefaultRowsCount (Some 9000).
Proof.
  destruct (getDefaultRowsCount_idempotent_monotone (-7) 9000 None (vm loaded))
    as (_ & _ & Hmono & _).
  apply Hmono; lia.
Defined.

(** ** Failures *)

(** X3. A failed fetch hands the exception back to the caller, lowers the
    loader, and writes message, details flag and stored exception from
    this failure alone, whatever error state was there before: a generic
    error leaves no details and no stored exception.  Rows, columns,
    [_hasMoreRows], status message and duration of the last success,
    pending edits and grid are as they were. *)
Theorem failed_fetch_records_the_error rowOffset e m m0 :
  (onRequestData_resume rowOffset (rejected e) m).2 = rejected e /\
  (errorMessage (onRequestData_resume rowOffset (rejected e) m).1
   = errorMessage (onRequestData_resume rowOffset (rejected e) m0).1 /\
   hasDetails (onRequestData_resume rowOffset (rejected e) m).1
   = hasDetails (onRequestData_resume rowOffset (rejected e) m0).1 /\
   exception (onRequestData_resume rowOffset (rejected e) m).1
   = exception (onRequestData_resume rowOffset (rejected e) m0).1) /\
  (forall name message,
      e = JsError name message ->
      errorMessage (onRequestData_resume rowOffset (rejected e) m).1
      = name +:+ ": " +:+ message /\
      hasDetails (onRequestData_resume rowOffset (rejected e) m).1 = false /\
      onShowDetails (onRequestData_resume rowOffset (rejected e) m).1 = None) /\
  (forall errorText details,
      e = GQLError errorText details ->
      errorMessage (onRequestData_resume rowOffset (rejected e) m).1
      = errorText /\
      hasDetails (onRequestData_resume rowOffset (rejected e) m).1 = details /\
      onShowDetails (onRequestData_resume rowOffset (rejected e) m).1 = Some e) /\
  (tableDataModel (onRequestData_resume rowOffset (rejected e) m).1
   = tableDataModel m /\
   _hasMoreRows (onRequestData_resume rowOffset (rejected e) m).1
   = _hasMoreRows m /\
   requestStatusMessage (onRequestData_resume rowOffset (rejected e) m).1
   = requestStatusMessage m /\
   queryDuration (onRequestData_resume rowOffset (rejected e) m).1
   = queryDuration m /\
   tableEditor (onRequestData_resume rowOffset (rejected e) m).1
   = tableEditor m /\
   actions (onRequestData_resume rowOffset (rejected e) m).1 = actions m /\
   _isLoaderVisible (onRequestData_resume rowOffset (rejected e) m).1 = false).
Proof.
  unfold onShowDetails, onRequestData_resume, showError.
  split; [done|]. split; [by destruct e, m, m0|]. split; [|split].
  - intros name message ->. by destruct m.
  - intros errorText details ->. by destruct m.
  - by destruct e, m.
Qed.

Lemma failed_fetch_records_the_error_witness :
  errorMessage
    (onRequestData_resume 0 (rejected (JsError "TypeError" "fetch failed"))
       (vm failed_first)).1 = "TypeError: fetch failed" /\
  hasDetails
    (onRequestData_resume 0 (rejected (JsError "TypeError" "fetch failed"))
       (vm failed_first)).1 = false.
Proof.
  destruct (failed_fetch_records_the_error 0
              (JsError "TypeError" "fetch failed") (vm failed_first) (vm loaded))
    as (_ & _ & Hgeneric & _).
  destruct (Hgeneric "TypeError" "fetch failed" eq_refl) as (Hmsg & Hdet & _).
  split; [exact Hmsg | exact Hdet].
Defined.

(** How a step changes the error state: it keeps the stored exception and
    the details flag and keeps or empties the message, or it is a failed
    fetch and writes all three. *)
Lemma error_step ev m waiting s' o :
  step ev (mkMachine m waiting) = Some (s', o) ->
  (exception (vm s') = exception m /\ hasDetails (vm s') = hasDetails m /\
   (errorMessage (vm s') = errorMessage m \/ errorMessage (vm s') = "")) \/
  (exists rowOffset e,
      exception (vm s')
      = exception (onRequestData_resume rowOffset (rejected e) m).1 /\
      hasDetails (vm s')
      = hasDetails (onRequestData_resume rowOffset (rejected e) m).1 /\
      errorMessage (vm s')
      = errorMessage (onRequestData_resume rowOffset (rejected e) m).1).
Proof.
  intros Hstep.
  destruct (step_vm _ _ _ _ _ Hstep)
    as [->|[->|[[b ->]|[(off & reply & ->)|[(diffs & reply & ->)|
        [[diffs ->]|[[count ->]|[->|(r & c & v & ->)]]]]]]]].
  - left. by eauto.
  - left. destruct m; simpl; eauto.
  - left. destruct m; simpl; eauto.
  - destruct reply as [resp|e].
    + left. unfold onRequestData_resume, insertRows, clearErrors, updateInfo.
      destruct m; simpl; case_bool_decide; simpl; eauto.
    + right. by exists off, e.
  - left. unfold trySaveChanges_resume. destruct reply as [data|e].
    + destruct (zipDiffAndResults _ _).
      * rewrite updateAgGridRows_spec. unfold clearErrors, updateInfo.
        destruct m; simpl; eauto.
      * destruct m; simpl; eauto.
    + destruct m; simpl; eauto.
  - left. unfold revertChanges. rewrite updateAgGridRows_spec.
    destruct m; simpl; eauto.
  - left. unfold setChunkSize, updateChunkSize, notify. destruct m; simpl; eauto.
  - left. unfold resetData, notify. destruct m; simpl; eauto.
  - left. unfold onCellEditingStopped. destruct m; simpl; eauto.
Qed.

(** X4. In every state the view-model can reach, a raised details flag
    comes with a stored [GQLError] that has details, so [onShowDetails]
    has something to open; what is stored is never a generic error, its
    [hasDetails()] is the flag, and its text is the message on display
    unless the message has been emptied since. *)
Theorem details_flag_has_an_exception s :
  reachable s ->
  error_state_coherent (vm s) /\
  (hasDetails (vm s) = true ->
   exists errorText,
     onShowDetails (vm s) = Some (GQLError errorText true) /\
     (errorMessage (vm s) = errorText \/ errorMessage (vm s) = "")) /\
  (forall e, onShowDetails (vm s) = Some e ->
             exists errorText, e = GQLError errorText (hasDetails (vm s))).
Proof.
  intros Hreach.
  assert (Hinv : error_state_coherent (vm s)).
  { induction Hreach as [initialState noLoader|[m waiting] ev s' o Hreach IH Hstep].
    - unfold error_state_coherent, boot, new_TableViewerModel, insertRows,
        updateInfo. by destruct initialState.
    - cbn [vm] in IH.
      destruct (error_step _ _ _ _ _ Hstep)
        as [(He & Hd & Hm)|(off & e & He & Hd & Hm)];
        unfold error_state_coherent in *; rewrite He, Hd.
      + destruct (exception m) as [[t d|? ?]|]; [|done..].
        destruct IH as [IHd IHm]. split; [done|].
        destruct Hm as [->| ->]; [done|]. by right.
      + rewrite Hm. unfold onRequestData_resume, showError.
        destruct e, m; simpl; eauto. }
  split; [exact Hinv|].
  unfold error_state_coherent, onShowDetails in *.
  destruct (exception (vm s)) as [[t d|? ?]|]; [|done|].
  - destruct Hinv as [Hd Hm]. split.
    + intros Htrue. exists t. split; [congruence|done].
    + intros e [= <-]. exists t. by rewrite Hd.
  - split; [congruence|done].
Qed.

Lemma details_flag_has_an_exception_witness :
  exists errorText,
    onShowDetails (vm failed_first) = Some (GQLError errorText true).
Proof.
  assert (Hreach : reachable failed_first).
  { apply (run_reachable
             [gridAttached; callRequestData 0 4; fetchSettled 0 (rejected denied)]
             (boot None false) failed_first
             [completes; calls (requestDataAsync 0 4); throws denied]).
    - apply reach_boot.
    - vm_compute. reflexivity. }
  destruct (details_flag_has_an_exception failed_first Hreach)
    as (_ & Hflag & _).
  destruct (Hflag eq_refl) as (t & Ht & _). by exists t.
Defined.

(** ** The retry loop *)

Lemma resume_ignores_loader diffs reply b m :
  trySaveChanges_resume diffs reply (set_isLoaderVisible b m)
  = trySaveChanges_resume diffs reply m.
Proof.
  unfold trySaveChanges_resume. destruct reply as [data|e].
  - destruct (zipDiffAndResults _ _).
    + rewrite !updateAgGridRows_spec. unfold clearErrors, updateInfo.
      by destruct m.
    + by destruct m.
  - by destruct m.
Qed.

Lemma run_app evs1 evs2 s :
  run (evs1 ++ evs2) s =
    match run evs1 s with
    | Some (s1, o1) => (fun r => (r.1, o1 ++ r.2)) <$> run evs2 s1
    | None => None
    end.
Proof.
  revert s. induction evs1 as [|ev evs1 IH]; intros s; simpl.
  - by destruct (run evs2 s) as [[? ?]|].
  - destruct (step ev s) as [[s1 o]|]; [|done]. rewrite IH.
    destruct (run evs1 s1) as [[s2 o2]|]; [|done]. simpl.
    by destruct (run evs2 s2) as [[? ?]|].
Qed.

Lemma failed_attempt_then_retry diffs e m waiting i :
  waiting !! i = Some (awaitSave diffs) ->
  run [saveSettled i (rejected e); dialogClosed i true] (mkMachine m waiting)
  = Some (mkMachine (set_isLoaderVisible true m) waiting,
          [calls (onSaveChanges_catch e); calls (saveChanges diffs)]).
Proof.
  intros Hwait. cbn [run step vm inflight trySaveChanges_resume].
  rewrite Hwait. cbn [run step vm inflight fmap option_fmap option_map].
  rewrite list_lookup_insert_eq by (by eapply lookup_lt_Some).
  cbn [onSaveChanges_answer]. unfold trySaveChanges_begin.
  rewrite set_loader_twice, list_insert_insert_eq.
  by rewrite (list_insert_id waiting i).
Qed.

Lemma retries_run diffs es m waiting i :
  waiting !! i = Some (awaitSave diffs) ->
  run (retries i es) (mkMachine m waiting)
  = Some (mkMachine (match es with [] => m | _ => set_isLoaderVisible true m end)
            waiting,
          retry_outputs diffs es).
Proof.
  intros Hwait. revert m. induction es as [|e es IH]; intros m; [done|].
  change (retries i (e :: es))
    with ([saveSettled i (rejected e); dialogClosed i true] ++ retries i es).
  rewrite run_app, (failed_attempt_then_retry diffs) by done.
  rewrite IH. simpl. do 2 f_equal.
  destruct es; [done|]. by rewrite set_loader_twice.
Qed.

(** X5. A rejected save attempt is reported through the retry dialog only:
    the message is the [errorText] of a [GQLError] and [name: message]
    otherwise, details are offered only for a [GQLError] that has them.
    Unlike a failed fetch it writes nothing to the view-model's error
    state, and rows, pending edits, status and grid are as they were while
    the dialog waits; the loader is down. *)
Theorem failed_save_only_opens_the_dialog diffs e m waiting i :
  waiting !! i = Some (awaitSave diffs) ->
  exists m',
    step (saveSettled i (rejected e)) (mkMachine m waiting)
    = Some (mkMachine m' (<[i := awaitDialog diffs e]> waiting),
            calls match e with
                  | GQLError errorText details =>
                      openErrorDialog errorText details
                  | JsError name message =>
                      openErrorDialog (name +:+ ": " +:+ message) false
                  end) /\
    (errorMessage m' = errorMessage m /\ hasDetails m' = hasDetails m /\
     onShowDetails m' = onShowDetails m) /\
    (tableDataModel m' = tableDataModel m /\ tableEditor m' = tableEditor m /\
     requestStatusMessage m' = requestStatusMessage m /\
     queryDuration m' = queryDuration m /\ actions m' = actions m /\
     _hasMoreRows m' = _hasMoreRows m) /\
    _isLoaderVisible m' = false.
Proof.
  intros Hwait. exists (set_isLoaderVisible false m). split.
  - cbn [step vm inflight trySaveChanges_resume]. rewrite Hwait.
    by destruct e.
  - unfold onShowDetails. by destruct m.
Qed.

Lemma failed_save_only_opens_the_dialog_witness :
  exists m',
    step (saveSettled 0 (rejected denied))
      (mkMachine (vm edited_twice) [awaitSave two_diffs])
    = Some (mkMachine m' [awaitDialog two_diffs denied],
            calls (openErrorDialog "permission denied" true)) /\
    errorMessage m' = "" /\ tableEditor m' = two_diffs.
Proof.
  destruct (failed_save_only_opens_the_dialog two_diffs denied
              (vm edited_twice) [awaitSave two_diffs] 0 eq_refl)
    as (m' & Hstep & (Hmsg & _) & (_ & Hed & _) & _).
  exists m'. split; [exact Hstep|]. split.
  - rewrite Hmsg. reflexivity.
  - rewrite Hed. reflexivity.
Defined.

(** X6. Failed save attempts that the user answers with a retry leave no
    trace: every retry calls the save collaborator with the diffs captured
    when the commit began, and whatever the attempt after them does, it
    does what it would have done as the first attempt. *)
Theorem retried_failures_leave_no_trace diffs es reply m waiting i :
  waiting !! i = Some (awaitSave diffs) ->
  run (retries i es ++ [saveSettled i reply]) (mkMachine m waiting)
  = (fun r => (r.1, retry_outputs diffs es ++ [r.2]))
      <$> step (saveSettled i reply) (mkMachine m waiting).
Proof.
  intros Hwait. rewrite run_app, (retries_run diffs) by done.
  assert (Hsame :
    step (saveSettled i reply)
      (mkMachine (match es with [] => m | _ => set_isLoaderVisible true m end)
         waiting)
    = step (saveSettled i reply) (mkMachine m waiting)).
  { destruct es; [done|]. cbn [step vm inflight]. rewrite Hwait.
    by rewrite resume_ignores_loader. }
  cbn [run]. rewrite Hsame.
  by destruct (step (saveSettled i reply) (mkMachine m waiting)) as [[? ?]|].
Qed.

Lemma retried_failures_leave_no_trace_witness :
  run (retries 0 [denied; length_mismatch] ++ [saveSettled 0 (resolved saved_two)])
      (mkMachine (vm edited_twice) [awaitSave two_diffs])
  = (fun r => (r.1, retry_outputs two_diffs [denied; length_mismatch] ++ [r.2]))
      <$> step (saveSettled 0 (resolved saved_two))
            (mkMachine (vm edited_twice) [awaitSave two_diffs]).
Proof.
  apply (retried_failures_leave_no_trace two_diffs [denied; length_mismatch]
           (resolved saved_two) (vm edited_twice) [awaitSave two_diffs] 0).
  reflexivity.
Defined.

(** ** The map of returned rows, whatever the diffs *)

Lemma map_set_fst k v (m : SomeTableRows) :
  (map_set k v m).*1 = if decide (k ∈ m.*1) then m.*1 else m.*1 ++ [k].
Proof.
  induction m as [|[k0 v0] m IH].
  - destruct (decide (k ∈ ([] : SomeTableRows).*1)) as [Hin|_]; [|done].
    by apply elem_of_nil in Hin.
  - cbn [map_set]. destruct (decide (k = k0)) as [->|Hk].
    + destruct (decide (k0 ∈ ((k0, v0) :: m).*1)) as [_|Hout]; [done|].
      exfalso. apply Hout. rewrite fmap_cons. by left.
    + rewrite !fmap_cons, IH. cbn [fst].
      destruct (decide (k ∈ m.*1)) as [Hin|Hout];
        destruct (decide (k ∈ k0 :: m.*1)) as [Hin'|Hout']; try done.
      * exfalso. apply Hout'. by right.
      * exfalso. by apply elem_of_cons in Hin' as [?|?].
Qed.

Lemma map_set_keys_unique k v (m : SomeTableRows) :
  NoDup m.*1 -> NoDup (map_set k v m).*1.
Proof.
  intros Hnd. rewrite map_set_fst. case_decide as Hin; [done|].
  apply NoDup_app. split; [done|]. split; [|apply NoDup_singleton].
  intros x Hx Hx'. apply list_elem_of_singleton in Hx'. by subst.
Qed.

Lemma map_set_elem k v (m : SomeTableRows) k' v' :
  NoDup m.*1 ->
  (k', v') ∈ map_set k v m <->
  (k' = k /\ v' = v) \/ (k' <> k /\ (k', v') ∈ m).
Proof.
  induction m as [|[k0 v0] m IH]; simpl; intros Hnd.
  - rewrite list_elem_of_singleton. split.
    + intros [= -> ->]. by left.
    + intros [[-> ->]|[_ Hin]]; [done|]. by apply elem_of_nil in Hin.
  - apply NoDup_cons in Hnd as [Hfresh Hnd].
    destruct (decide (k = k0)) as [->|Hk].
    + rewrite !elem_of_cons. split.
      * intros [[= -> ->]|Hin]; [by left|]. right. split; [|by right].
        intros ->. apply Hfresh. apply list_elem_of_fmap. by exists (k0, v').
      * intros [[-> ->]|[Hne [[= -> ->]|Hin]]]; [by left|done|by right].
    + rewrite !elem_of_cons, IH by done. split.
      * intros [[= -> ->]|[[-> ->]|[Hne Hin]]].
        -- right. split; [done|by left].
        -- by left.
        -- right. split; [done|by right].
      * intros [[-> ->]|[Hne [[= -> ->]|Hin]]].
        -- right. by left.
        -- by left.
        -- right. right. done.
Qed.

(** The loop of [set] calls over any array: no key twice, and the value
    under a key is the one set last for it. *)
Lemma fold_map_set_last {A} (key : A -> nat) (val : A -> TableRow)
    (l : list A) (acc : SomeTableRows) k v :
  NoDup acc.*1 ->
  NoDup (foldl (fun acc x => map_set (key x) (val x) acc) acc l).*1 /\
  ((k, v) ∈ foldl (fun acc x => map_set (key x) (val x) acc) acc l <->
   match last (filter (fun x => key x = k) l) with
   | Some x => v = val x
   | None => (k, v) ∈ acc
   end).
Proof.
  revert acc. induction l as [|a l IH]; intros acc Hnd; simpl; [done|].
  destruct (IH (map_set (key a) (val a) acc)) as [Hk Hv];
    [by apply map_set_keys_unique|].
  split; [exact Hk|]. rewrite Hv. rewrite filter_cons.
  destruct (decide (key a = k)) as [Ha|Ha].
  - rewrite last_cons.
    destruct (last (filter (fun x => key x = k) l)); [done|].
    rewrite map_set_elem by done. subst k. split.
    + intros [[_ ->]|[Hne _]]; done.
    + intros ->. by left.
  - destruct (last (filter (fun x => key x = k) l)); [done|].
    rewrite map_set_elem by done. split.
    + intros [[-> _]|[_ Hin]]; done.
    + intros Hin. right. split; [congruence|done].
Qed.

(** X7. For any diffs, also with a row index that occurs more than once,
    and as many returned rows, [zipDiffAndResults] builds a map with one
    entry per row index that occurs among the diffs, holding the row
    returned for the last diff with that index. *)
Theorem zipDiffAndResults_last_wins diff (newRows : list TableRow) :
  length diff = length newRows ->
  exists m,
    zipDiffAndResults diff newRows = resolved m /\
    NoDup m.*1 /\
    (forall k v, (k, v) ∈ m <-> last_row_for k diff newRows = Some v) /\
    (forall k, k ∈ m.*1 <-> k ∈ rowIndex <$> diff).
Proof.
  intros Hlen. unfold zipDiffAndResults. rewrite decide_False by (by intros ?).
  eexists. split; [reflexivity|].
  assert (Hlast : forall k v,
    (k, v) ∈ foldl (fun acc p => map_set (rowIndex p.1) p.2 acc) []
                   (zip diff newRows)
    <-> last_row_for k diff newRows = Some v).
  { intros k v.
    destruct (fold_map_set_last (fun p : RowDiff * TableRow => rowIndex p.1)
                (fun p => p.2) (zip diff newRows) [] k v) as [_ Hv];
      [apply NoDup_nil_2|].
    rewrite Hv. unfold last_row_for.
    destruct (last _) as [p|]; simpl.
    - split; [by intros ->|by intros [= ->]].
    - split; [by intros Hin%elem_of_nil|done]. }
  split; [|split; [exact Hlast|]].
  - by apply (fold_map_set_last (fun p : RowDiff * TableRow => rowIndex p.1)
                (fun p => p.2) (zip diff newRows) [] 0%nat []), NoDup_nil_2.
  - intros k. rewrite list_elem_of_fmap. split.
    + intros ([k' v] & -> & Hin). apply Hlast in Hin. unfold last_row_for in Hin.
      destruct (last _) as [p|] eqn:Hp; [|done].
      apply last_Some_elem_of, list_elem_of_filter in Hp as [Hkey Hp].
      simpl. rewrite <- Hkey.
      apply list_elem_of_fmap. exists p.1. split; [done|].
      rewrite <- (fst_zip diff newRows) by lia.
      apply list_elem_of_fmap. by exists p.
    + intros Hin. apply list_elem_of_fmap in Hin as (d & -> & Hd).
      rewrite <- (fst_zip diff newRows) in Hd by lia.
      apply list_elem_of_fmap in Hd as (p & -> & Hp).
      destruct (last (filter (fun q : RowDiff * TableRow => rowIndex q.1 = rowIndex p.1)
                        (zip diff newRows))) as [q|] eqn:Hq.
      * exists (rowIndex p.1, q.2). split; [done|]. apply Hlast.
        unfold last_row_for. by rewrite Hq.
      * apply last_None in Hq.
        assert (Hpin : p ∈ filter (fun q : RowDiff * TableRow =>
                                     rowIndex q.1 = rowIndex p.1)
                                  (zip diff newRows))
          by (by apply list_elem_of_filter).
        rewrite Hq in Hpin. by apply elem_of_nil in Hpin.
Qed.

Lemma zipDiffAndResults_last_wins_witness :
  exists m,
    zipDiffAndResults
      [mkRowDiff 1 ["2"; "bob"] ["2"; "bea"]; mkRowDiff 3 ["4"; "dee"] ["4"; "dot"];
       mkRowDiff 1 ["2"; "bob"] ["2"; "ben"]]
      [["2"; "bea"]; ["4"; "dot"]; ["2"; "ben"]] = resolved m /\
    NoDup m.*1.
Proof.
  destruct (zipDiffAndResults_last_wins
              [mkRowDiff 1 ["2"; "bob"] ["2"; "bea"];
               mkRowDiff 3 ["4"; "dee"] ["4"; "dot"];
               mkRowDiff 1 ["2"; "bob"] ["2"; "ben"]]
              [["2"; "bea"]; ["4"; "dot"]; ["2"; "ben"]] eq_refl)
    as (m & Hm & Hnd & _).
  by exists m.
Defined.

(** ** Rows in and out of the store *)

Lemma write_from_end new rs :
  TableDataModel.write_from (length rs) new rs = rs ++ (Some <$> new).
Proof.
  revert rs. induction new as [|r new IH]; intros rs; simpl.
  - by rewrite app_nil_r.
  - unfold TableDataModel.array_set. rewrite decide_False by lia.
    rewrite Nat.sub_diag. simpl.
    replace (S (length rs)) with (length (rs ++ [Some r]))
      by (rewrite length_app; simpl; lia).
    rewrite IH. by rewrite <- app_assoc.
Qed.

Lemma getRow_Some (rs : list (option TableRow)) j x :
  TableDataModel.getRow rs j = Some x <-> rs !! j = Some (Some x).
Proof.
  unfold TableDataModel.getRow. destruct (rs !! j) as [[y|]|]; simpl; naive_solver.
Qed.

Lemma isChunkLoaded_rows o c t :
  TableDataModel.isChunkLoaded o c t = true <->
  forall j, (o <= j < o + c)%nat ->
            is_Some (TableDataModel.getRow (TableDataModel.store_rows t) j).
Proof.
  unfold TableDataModel.isChunkLoaded. rewrite forallb_forall. split.
  - intros H j Hj. eapply bool_decide_eq_true_1, H. apply in_seq. lia.
  - intros H j Hj. apply bool_decide_eq_true_2, H. apply in_seq in Hj. lia.
Qed.

Lemma omap_id_Some (l : list TableRow) : omap id (Some <$> l) = l.
Proof. induction l as [|x l IH]; [done|]. rewrite fmap_cons. simpl. by f_equal. Qed.

Lemma getChunk_write_from p new rs cols o c :
  (p <= o)%nat -> (o + c <= p + length new)%nat ->
  TableDataModel.getChunk o c
    (TableDataModel.mk (TableDataModel.write_from p new rs) cols)
  = take c (drop (o - p) new).
Proof.
  intros Hlo Hhi. unfold TableDataModel.getChunk. simpl.
  rewrite <- (omap_id_Some (take c (drop (o - p) new))). f_equal.
  apply list_eq. intros i. rewrite list_lookup_fmap.
  destruct (decide (i < c)%nat) as [Hi|Hi].
  - rewrite !lookup_take_lt, !lookup_drop by done.
    destruct (lookup_lt_is_Some_2 new (o - p + i)) as [x Hx]; [lia|].
    rewrite Hx. simpl. apply getRow_Some.
    rewrite getRow_write_from, decide_True by lia.
    by replace (o + i - p)%nat with (o - p + i)%nat by lia.
  - by rewrite !lookup_take_ge by lia.
Qed.

Lemma rows_after_fetch rowOffset resp m :
  TableDataModel.store_rows
    (tableDataModel (onRequestData_resume rowOffset (resolved resp) m).1)
  = TableDataModel.write_from rowOffset (IRequestDataResult.rows resp)
      (TableDataModel.store_rows (tableDataModel m)).
Proof.
  unfold onRequestData_resume, insertRows, clearErrors, updateInfo.
  destruct m; simpl. by case_bool_decide.
Qed.

(** X8. What a successful fetch has written is what the cache serves: any
    window inside the fetched range is then answered without a remote
    call, with exactly the rows the remote returned for it, the columns
    the store holds and the current fully-loaded flag. *)
Theorem fetched_window_is_served_back rowOffset resp m o c reply :
  (rowOffset <= o)%nat ->
  (o + c <= rowOffset + length (IRequestDataResult.rows resp))%nat ->
  onRequestData o c reply (onRequestData_resume rowOffset (resolved resp) m).1
  = ((onRequestData_resume rowOffset (resolved resp) m).1,
     resolved
       (IRequestedData.mk
          (take c (drop (o - rowOffset) (IRequestDataResult.rows resp)))
          (TableDataModel.getColumns
             (tableDataModel
                (onRequestData_resume rowOffset (resolved resp) m).1))
          (isFullyLoaded (onRequestData_resume rowOffset (resolved resp) m).1)),
     false).
Proof.
  intros Hlo Hhi.
  pose proof (rows_after_fetch rowOffset resp m) as Hrows.
  set (m' := (onRequestData_resume rowOffset (resolved resp) m).1) in *.
  rewrite onRequestData_hit.
  - unfold cache_answer. do 2 f_equal.
    destruct (tableDataModel m') as [rs cols]. simpl in Hrows. subst rs.
    by rewrite getChunk_write_from.
  - left. apply isChunkLoaded_rows. intros j Hj. rewrite Hrows.
    rewrite getRow_write_from, decide_True by lia.
    apply lookup_lt_is_Some. lia.
Qed.

Lemma fetched_window_is_served_back_witness :
  (onRequestData 1 2 (rejected denied)
     (onRequestData_resume 0 (resolved sample_page)
        (new_TableViewerModel None false)).1).1.2
  = resolved (IRequestedData.mk [["2"; "bob"]; ["3"; "cy"]] sample_columns false).
Proof.
  rewrite (fetched_window_is_served_back 0 sample_page
             (new_TableViewerModel None false) 1 2 (rejected denied));
    [reflexivity | lia | simpl; lia].
Defined.

(** X9. Asking for the window that starts right after the last known row,
    while more rows are expected, always goes to the remote; a successful
    reply is returned as it came, its rows are appended to the store, and
    [_hasMoreRows] follows the reply unless it brought no rows. *)
Theorem next_page_is_appended count resp m :
  _hasMoreRows m = true -> (0 < count)%nat ->
  (onRequestData (length (TableDataModel.getRows (tableDataModel m))) count
     (resolved resp) m).2 = true /\
  (onRequestData (length (TableDataModel.getRows (tableDataModel m))) count
     (resolved resp) m).1.2
  = resolved (IRequestedData.mk (IRequestDataResult.rows resp)
                (IRequestDataResult.columns resp)
                (IRequestDataResult.isFullyLoaded resp)) /\
  TableDataModel.getRows
    (tableDataModel
       (onRequestData (length (TableDataModel.getRows (tableDataModel m))) count
          (resolved resp) m).1.1)
  = TableDataModel.getRows (tableDataModel m)
    ++ (Some <$> IRequestDataResult.rows resp) /\
  _hasMoreRows
    (onRequestData (length (TableDataModel.getRows (tableDataModel m))) count
       (resolved resp) m).1.1
  = match IRequestDataResult.rows resp with
    | [] => true
    | _ => negb (IRequestDataResult.isFullyLoaded resp)
    end.
Proof.
  intros Hmore Hcount. unfold onRequestData.
  rewrite onRequestData_begin_miss; [|
    | exact Hmore].
  - cbn [fst snd]. split; [done|]. split; [done|]. split.
    + unfold TableDataModel.getRows. rewrite rows_after_fetch.
      replace (TableDataModel.store_rows (tableDataModel (set_isLoaderVisible _ m)))
        with (TableDataModel.store_rows (tableDataModel m)) by (by destruct m).
      apply write_from_end.
    + rewrite fetch_hasMoreRows.
      replace (tableDataModel (set_isLoaderVisible _ m)) with (tableDataModel m)
        by (by destruct m).
      replace (_hasMoreRows (set_isLoaderVisible _ m)) with (_hasMoreRows m)
        by (by destruct m).
      destruct (IRequestDataResult.rows resp); simpl.
      * case_bool_decide; [lia|done].
      * case_bool_decide; [done|lia].
  - apply not_true_is_false. intros Hloaded.
    pose proof (proj1 (isChunkLoaded_rows _ _ _) Hloaded
                  (length (TableDataModel.getRows (tableDataModel m))))
      as [x Hx]; [lia|].
    apply getRow_Some, lookup_lt_Some in Hx.
    unfold TableDataModel.getRows in Hx. lia.
Qed.

Lemma next_page_is_appended_witness :
  TableDataModel.getRows
    (tableDataModel (onRequestData 4 4 (resolved last_page) (vm loaded)).1.1)
  = TableDataModel.getRows (tableDataModel (vm loaded)) ++ [Some ["5"; "eve"]] /\
  _hasMoreRows (onRequestData 4 4 (resolved last_page) (vm loaded)).1.1 = false.
Proof.
  destruct (next_page_is_appended 4 last_page (vm loaded))
    as (_ & _ & Hrows & Hmore); [reflexivity | lia |].
  split; [exact Hrows | exact Hmore].
Defined.

(** X10. A view-model constructed from an initial state holds its rows,
    columns, status message and duration; [_hasMoreRows] is the negation
    of its [isFullyLoaded] unless it has no rows; and any window inside
    the initial rows is served from the store without a remote call. *)
Theorem initial_state_is_cached s noLoader o c reply :
  (o + c <= length (IRequestDataResult.rows s))%nat ->
  TableDataModel.getRows (tableDataModel (new_TableViewerModel (Some s) noLoader))
  = Some <$> IRequestDataResult.rows s /\
  TableDataModel.getColumns
    (tableDataModel (new_TableViewerModel (Some s) noLoader))
  = IRequestDataResult.columns s /\
  requestStatusMessage (new_TableViewerModel (Some s) noLoader)
  = IRequestDataResult.statusMessage s /\
  queryDuration (new_TableViewerModel (Some s) noLoader)
  = default 0 (IRequestDataResult.duration s) /\
  _hasMoreRows (new_TableViewerModel (Some s) noLoader)
  = match IRequestDataResult.rows s with
    | [] => true
    | _ => negb (IRequestDataResult.isFullyLoaded s)
    end /\
  onRequestData o c reply (new_TableViewerModel (Some s) noLoader)
  = (new_TableViewerModel (Some s) noLoader,
     resolved
       (IRequestedData.mk (take c (drop o (IRequestDataResult.rows s)))
          (IRequestDataResult.columns s)
          (isFullyLoaded (new_TableViewerModel (Some s) noLoader))),
     false).
Proof.
  intros Hwin.
  assert (Hstore :
    tableDataModel (new_TableViewerModel (Some s) noLoader)
    = TableDataModel.mk
        (TableDataModel.write_from 0 (IRequestDataResult.rows s) [])
        (IRequestDataResult.columns s)) by done.
  split; [|split; [|split; [|split; [|split]]]].
  - rewrite Hstore. exact (write_from_end (IRequestDataResult.rows s) []).
  - by rewrite Hstore.
  - done.
  - done.
  - unfold new_TableViewerModel, insertRows, updateInfo. simpl.
    by destruct (IRequestDataResult.rows s).
  - rewrite onRequestData_hit.
    + unfold cache_answer. rewrite Hstore. do 2 f_equal.
      rewrite getChunk_write_from by lia. by rewrite Nat.sub_0_r.
    + left. apply isChunkLoaded_rows. intros j Hj. rewrite Hstore. simpl.
      rewrite getRow_write_from, decide_True by lia.
      apply lookup_lt_is_Some. lia.
Qed.

Lemma initial_state_is_cached_witness :
  (onRequestData 2 2 (rejected denied)
     (new_TableViewerModel (Some sample_page) true)).1.2
  = resolved (IRequestedData.mk [["3"; "cy"]; ["4"; "dee"]] sample_columns false).
Proof.
  destruct (initial_state_is_cached sample_page true 2 2 (rejected denied))
    as (_ & _ & _ & _ & _ & Hhit); [simpl; lia|].
  rewrite Hhit. reflexivity.
Defined.

Lemma columns_after_call o c reply m :
  TableDataModel.getColumns (tableDataModel m) <> [] ->
  TableDataModel.getColumns (tableDataModel (onRequestData o c reply m).1.1)
  = TableDataModel.getColumns (tableDataModel m).
Proof.
  intros Hcols. unfold onRequestData, onRequestData_begin.
  destruct (_ || _); [done|]. cbn [fst].
  unfold onRequestData_resume, insertRows, clearErrors, updateInfo, showError.
  destruct reply as [resp|[]]; destruct m as [? ? ? ? ? ? ? ? [rs cols] ? ? ?];
    simpl in *; try done.
  case_bool_decide as Hlen; [|done]. by destruct cols.
Qed.

(** X11. The columns are adopted once: with columns in the store, no
    sequence of fetches, whatever columns the replies carry, changes them;
    with none, a successful fetch stores the columns of its reply. *)
Theorem columns_are_adopted_once calls m rowOffset resp m0 :
  TableDataModel.getColumns (tableDataModel m) <> [] ->
  TableDataModel.getColumns (tableDataModel m0) = [] ->
  TableDataModel.getColumns (tableDataModel (requestWindows calls m))
  = TableDataModel.getColumns (tableDataModel m) /\
  TableDataModel.getColumns
    (tableDataModel (onRequestData_resume rowOffset (resolved resp) m0).1)
  = IRequestDataResult.columns resp.
Proof.
  intros Hcols Hnone. split.
  - unfold requestWindows. revert m Hcols.
    induction calls as [|[[o c] r] calls IH]; intros m Hcols; [done|].
    simpl. rewrite IH; rewrite columns_after_call; done.
  - unfold onRequestData_resume, insertRows, clearErrors, updateInfo.
    destruct m0 as [? ? ? ? ? ? ? ? [rs cols] ? ? ?]; simpl in *. subst cols.
    by case_bool_decide.
Qed.

Lemma columns_are_adopted_once_witness :
  TableDataModel.getColumns
    (tableDataModel
       (requestWindows
          [(4, 4, resolved (IRequestDataResult.mk [["5"; "eve"]]
                              [mkColumn "other" "text" 0] true None "1 row"))]%nat
          (vm loaded)))
  = sample_columns /\
  TableDataModel.getColumns
    (tableDataModel
       (onRequestData_resume 0 (resolved sample_page)
          (new_TableViewerModel None false)).1)
  = sample_columns.
Proof.
  apply (columns_are_adopted_once
           [(4, 4, resolved (IRequestDataResult.mk [["5"; "eve"]]
                               [mkColumn "other" "text" 0] true None "1 row"))]%nat
           (vm loaded) 0 sample_page (new_TableViewerModel None false)).
  - vm_compute. discriminate.
  - reflexivity.
Defined.

(** X12. A refresh is idempotent on the view-model: refreshing again
    changes nothing but the grid, which is told to reset once more. *)
Theorem resetData_idempotent m :
  resetData (resetData m) = notify gridResetData (resetData m) /\
  set_actions (actions (resetData m)) (resetData (resetData m)) = resetData m.
Proof. unfold resetData, notify. by destruct m as [? ? ? ? ? ? ? ? [? ?] ? ? ?]. Qed.

(** X13. Appending rows with [pushRows] is inserting them with
    [insertRows] at the current row count, as long as there are rows to
    add; with none, [pushRows] still takes the flag it is given while
    [insertRows] keeps [_hasMoreRows]. *)
Theorem pushRows_is_insertRows_at_the_end rows hasMore m :
  rows <> [] ->
  pushRows rows hasMore m
  = insertRows (length (TableDataModel.getRows (tableDataModel m))) rows
      hasMore m /\
  _hasMoreRows (pushRows [] hasMore m) = hasMore /\
  _hasMoreRows
    (insertRows (length (TableDataModel.getRows (tableDataModel m))) []
       hasMore m) = _hasMoreRows m.
Proof.
  intros Hrows. unfold pushRows, insertRows, TableDataModel.pushRows,
    TableDataModel.insertRows, TableDataModel.getRows.
  destruct m as [? ? ? ? ? ? ? ? [rs cols] ? ? ?]; simpl.
  rewrite write_from_end. split; [|split].
  - rewrite bool_decide_eq_true_2; [done|]. destruct rows; [done|]. simpl. lia.
  - done.
  - by rewrite bool_decide_eq_false_2 by lia.
Qed.

Lemma pushRows_is_insertRows_at_the_end_witness :
  pushRows [["5"; "eve"]] false (vm loaded)
  = insertRows 4 [["5"; "eve"]] false (vm loaded).
Proof.
  destruct (pushRows_is_insertRows_at_the_end [["5"; "eve"]] false (vm loaded))
    as [Heq _]; [discriminate|].
  exact Heq.
Defined.

(** X14. A fetch, whether it is served from the store, succeeds or fails,
    never touches the pending edits, the grid, the chunk size or the
    loader option. *)
Theorem fetch_keeps_edits_and_grid rowOffset count reply m :
  tableEditor (onRequestData rowOffset count reply m).1.1 = tableEditor m /\
  actions (onRequestData rowOffset count reply m).1.1 = actions m /\
  _chunkSize (onRequestData rowOffset count reply m).1.1 = _chunkSize m /\
  noLoaderWhileRequestingDataAsync (onRequestData rowOffset count reply m).1.1
  = noLoaderWhileRequestingDataAsync m.
Proof.
  unfold onRequestData, onRequestData_begin.
  destruct (_ || _); [done|]. cbn [fst].
  unfold onRequestData_resume, insertRows, clearErrors, updateInfo, showError.
  destruct reply as [resp|[]]; destruct m; simpl; by repeat case_bool_decide.
Qed.

(** X15. The loader flag is no counter of what is in flight: when a fetch
    settles while a save attempt is still waiting for its reply, the flag
    goes down although the save is in flight. *)
Theorem fetch_settling_lowers_loader_during_save m waiting i j off cnt diffs
    reply :
  waiting !! i = Some (awaitFetch off cnt) ->
  waiting !! j = Some (awaitSave diffs) ->
  exists s' o,
    step (fetchSettled i reply) (mkMachine m waiting) = Some (s', o) /\
    isLoaderVisible (vm s') = false /\
    remote_in_flight s' = true.
Proof.
  intros Hi Hj. cbn [step vm inflight]. rewrite Hi.
  pose proof (loader_fetch_settled off reply m) as Hoff.
  destruct (onRequestData_resume off reply m) as [m1 r].
  do 2 eexists. split; [reflexivity|]. split; [exact Hoff|].
  unfold remote_in_flight. cbn [inflight].
  apply existsb_exists. exists (awaitSave diffs). split; [|done].
  apply list_elem_of_In.
  assert (Hne : i <> j) by (intros ->; congruence).
  destruct (decide (j < i)%nat).
  - apply (list_elem_of_lookup_2 _ j). by rewrite list_lookup_delete_lt.
  - destruct j as [|j]; [lia|].
    apply (list_elem_of_lookup_2 _ j). rewrite list_lookup_delete_ge by lia. done.
Qed.

Lemma fetch_settling_lowers_loader_during_save_witness :
  exists s' o,
    step (fetchSettled 1 (resolved last_page))
      (mkMachine (set_isLoaderVisible true (vm edited_twice))
         [awaitSave two_diffs; awaitFetch 4 4]) = Some (s', o) /\
    isLoaderVisible (vm s') = false /\
    remote_in_flight s' = true.
Proof.
  apply (fetch_settling_lowers_loader_during_save
           (set_isLoaderVisible true (vm edited_twice))
           [awaitSave two_diffs; awaitFetch 4 4] 1 0 4 4 two_diffs
           (resolved last_page)); reflexivity.
Defined.

Lemma nothing_pending_nothing_saved m waiting :
  tableEditor m = [] ->
  step callEditSave (mkMachine m waiting) = Some (mkMachine m waiting, completes).
Proof.
  intros Hnone. cbn [step vm inflight].
  unfold onSaveChanges_begin, TableEditor.getChanges. by rewrite Hnone.
Qed.

(** X16. Edits that were cancelled, and edits that a save has committed,
    are not sent again: a commit right after an edit cancel, or right
    after a successful save attempt, finds nothing pending and returns
    without calling the save collaborator. *)
Theorem settled_edits_are_not_saved_again diffs data m waiting i :
  waiting !! i = Some (awaitSave diffs) ->
  length diffs = length (IRequestDataResult.rows data) ->
  run [callEditCancel; callEditSave] (mkMachine m waiting)
  = Some (mkMachine (onEditCancel m) waiting, [completes; completes]) /\
  run [saveSettled i (resolved data); callEditSave] (mkMachine m waiting)
  = Some (mkMachine (trySaveChanges_resume diffs (resolved data) m).1
            (delete i waiting),
          [completes; completes]).
Proof.
  intros Hwait Hlen. split.
  - assert (Hfirst : step callEditCancel (mkMachine m waiting)
                     = Some (mkMachine (onEditCancel m) waiting, completes))
      by done.
    cbn [run]. rewrite Hfirst.
    rewrite nothing_pending_nothing_saved; [done|].
    unfold onEditCancel. apply editor_revert.
  - assert (Hrun : exists m',
      trySaveChanges_resume diffs (resolved data) m = (m', None)
      /\ tableEditor m' = []).
    { unfold trySaveChanges_resume, zipDiffAndResults.
      rewrite decide_False by (by intros ?). eexists. split; [reflexivity|].
      rewrite updateAgGridRows_spec. unfold clearErrors, updateInfo.
      by destruct m. }
    destruct Hrun as (m' & Hrun & Hnone).
    assert (Hfirst : step (saveSettled i (resolved data)) (mkMachine m waiting)
                     = Some (mkMachine m' (delete i waiting), completes)).
    { cbn [step vm inflight]. by rewrite Hwait, Hrun. }
    cbn [run]. rewrite Hfirst, Hrun.
    by rewrite nothing_pending_nothing_saved.
Qed.

Lemma settled_edits_are_not_saved_again_witness :
  run [callEditCancel; callEditSave]
    (mkMachine (vm edited_twice) [awaitSave two_diffs])
  = Some (mkMachine (onEditCancel (vm edited_twice)) [awaitSave two_diffs],
          [completes; completes]).
Proof.
  destruct (settled_edits_are_not_saved_again two_diffs saved_two
              (vm edited_twice) [awaitSave two_diffs] 0 eq_refl eq_refl)
    as [Hcancel _].
  exact Hcancel.
Defined.
